(** * plant_monitor.py: the monitor loop of the plant-voltage console

    A shallow embedding of [src/data collector/plant_monitor.py].

    The script keeps its state in module-level globals that are mutated by
    the widget callbacks ([func_record_toggle], [func_check], [func_clear],
    the preset callbacks of [make_callback], [func_custom_record]) and by
    the animation callback [update].  Here the globals are the fields of
    one record [State], every callback is a function [State -> State], and
    the things the script reaches through libraries are explicit:

    - a voltage is a Python [float], i.e. an IEEE binary64 value: Rocq's
      primitive [float];
    - a file is the list of its rows, the file system a finite map from
      file names to files, the console the list of printed messages;
    - the serial port is a FIFO of already decoded and stripped lines;
    - the wall clock, the outcome of [open] and Python's [float()] parser
      are inputs of the callbacks that use them.

    Calls into matplotlib that only draw (artists, colours) are not
    modelled; they, and the writes to a file that is open, are taken not
    to raise.  The one call of a tick that does raise on data the program
    can hold is [ax.set_ylim], which refuses limits that are not finite;
    the handler around the body of [update] then prints the error.

    A file object buffers what is written to it: [files] holds, for every
    file name, the rows written so far whether flushed or not, and [disk]
    the rows that have reached the file system.  [open(name, 'w')] leaves
    an empty file on disk; the header row, far shorter than the buffer of
    the file object, stays in the buffer until [flush] or [close]. *)

From Stdlib Require Import ZArith Floats Ascii String.
From stdpp Require Import base list strings gmap pretty sorting.

Open Scope Z_scope.
Open Scope nat_scope.

(** ** [collections.deque] with a [maxlen] *)

Module Deque.

Section deque.
Context {A : Type}.

Record deque := Mk { items : list A; maxlen : nat }.

(** [deque.append(x)]: the item is added on the right and, when the
    length then exceeds [maxlen], one item is discarded on the left. *)
Definition append (d : deque) (x : A) : deque :=
  let s := items d ++ [x] in
  {| items := if decide (maxlen d < length s) then drop 1 s else s;
     maxlen := maxlen d |}.

(** [deque.extend(xs)] appends the items one by one. *)
Definition extend (d : deque) (xs : list A) : deque := foldl append d xs.

(** [deque.clear()] *)
Definition clear (d : deque) : deque := {| items := []; maxlen := maxlen d |}.

(** [deque(xs, maxlen=n)] *)
Definition new (xs : list A) (n : nat) : deque :=
  extend {| items := []; maxlen := n |} xs.

(** The last [n] items of a list, Python's [l[-n:]] for [n > 0]. *)
Definition lastn (n : nat) (l : list A) : list A := drop (length l - n) l.

End deque.

Arguments deque : clear implicits.

End Deque.

(** ** Configuration and data model *)

#[warnings="-inexact-float"]
Definition NOISE_THRESHOLD : float := 0.002%float.

Definition MAX_POINTS : nat := 300.

Definition PRESET_LABELS : list string :=
  ["Fire Stimulus"; "Cut Leaf"; "Touch"; "Lights Off"; "Artifact"]%string.

(** What Python provides and the script only calls: the [float()]
    constructor on a decoded line ([None] for [ValueError]) and numpy's
    reductions over the array of the buffer. *)
Class PyLib := {
  float_of_string : string -> option float;
  np_max : list float -> float;
  np_min : list float -> float;
  np_mean : list float -> float;
}.

(** One reading of the clock ([datetime.now()], [time.time()]) in the
    renderings the script makes of it. *)
Record Clock := {
  now_HMS_compact : string;   (* now.strftime("%H%M%S") *)
  now_HMS : string;           (* now.strftime("%H:%M:%S") *)
  now_HMS_ms : string;        (* now.strftime("%H:%M:%S.%f")[:-3] *)
  elapsed_3f : string;        (* f"{time.time() - program_start_time:.3f}" *)
}.

(** A cell handed to [csv.writer.writerow], a row, a file. *)
Inductive cell := CStr (s : string) | CFloat (v : float).
Definition row := list cell.

(** An entry [[v_line, t_lbl, x]] of [active_markers]: the two artists
    carry the label, [x] is the remaining lifetime (the position on the
    strip chart). *)
Record Marker := { t_lbl : string; cur_x : Z }.

Inductive message :=
| MsgRecording (filename : string)   (* the "recording started" line *)
| MsgCreateFailed                    (* the "could not create file" line *)
| MsgSaved (filename : string)       (* the "file saved" line *)
| MsgViewReset                       (* the "view reset" line *)
| MsgError.                          (* the "Error: ..." line of [update] *)

Inductive trend := Wait | Rising | Falling | Stable.

(** The numbers shown in the right-hand panel. *)
Record Stats := {
  curr_val : float;
  max_val : float;
  min_val : float;
  avg_val : float;
  amp_val : float;
  trend_str : trend;
}.

(** The globals of the recording part of the script. *)
Record Recorder := {
  is_recording : bool;
  current_run_id : nat;
  csv_file : option string;      (* the open file, by the name it was opened with *)
  csv_writer : option string;    (* the writer over that file *)
  current_filename : string;
  last_save_time_str : string;
}.

(** The globals of the data containers. *)
Record View := {
  data_buffer : Deque.deque float;
  active_markers : list Marker;
  is_auto_scale : bool;
  last_valid_voltage : float;
  pending_event : option string;     (* pending_event[0] *)
}.

(** What lies outside the process. *)
Record World := {
  ser_in : list string;              (* lines waiting in the serial port *)
  files : gmap string (list row);     (* rows written, flushed or not *)
  disk : gmap string (list row);      (* rows in the file system *)
  console : list message;
}.

(** The status shown in the left-hand panel: recording (run, file, time
    of the last save) or paused (run, the stem of the next file name, time
    of the last save). *)
Inductive status_text :=
| StatusRec (run_id : nat) (file saved : string)
| StatusPaused (run_id : nat) (next saved : string).

(** The widgets whose content the callbacks set; a panel is [None]
    while its text is still empty. *)
Record Widgets := {
  btn_record_label : string;
  title : string;
  text_left : option status_text;
  text_right : option Stats;
}.

Record State := {
  recorder : Recorder;
  view : View;
  world : World;
  widgets : Widgets;
}.

Definition header_row : row :=
  [CStr "Timestamp"; CStr "Time_Sec"; CStr "Voltage"; CStr "Event_Note"].

(** [f"{n}"] and [f"{n:02d}"] on a natural number. *)
Definition fmt_d (n : nat) : string := pretty n.
Definition fmt_02d (n : nat) : string :=
  if decide (n < 10) then ("0" +:+ pretty n)%string else pretty n.

(** [f"Run_{current_run_id:02d}_{timestamp}.csv"] *)
Definition run_filename (run_id : nat) (timestamp : string) : string :=
  ("Run_" +:+ fmt_02d run_id +:+ "_" +:+ timestamp +:+ ".csv")%string.

(** The state the module-level code builds before the first callback;
    [fs] is the file system the program finds. *)
Definition init (fs : gmap string (list row)) : State :=
  {| recorder := {| is_recording := false; current_run_id := 0;
                    csv_file := None; csv_writer := None;
                    current_filename := "Ready to Record";
                    last_save_time_str := "---" |};
     view := {| data_buffer := Deque.new (replicate MAX_POINTS 0%float) MAX_POINTS;
                active_markers := [];
                is_auto_scale := false;
                last_valid_voltage := 0%float;
                pending_event := None |};
     world := {| ser_in := []; files := fs; disk := fs; console := [] |};
     widgets := {| btn_record_label := "Start REC";
                   title := "Plant Monitor - Ready";
                   text_left := None; text_right := None |} |}.

(** ** The widget callbacks *)

Definition print (m : message) (w : World) : World :=
  {| ser_in := ser_in w; files := files w; disk := disk w;
     console := console w ++ [m] |}.

(** [open(f, 'w', ...)] followed by [csv_writer.writerow(r)]: the file is
    created or truncated on disk; the row waits in the buffer. *)
Definition open_writerow (f : string) (r : row) (w : World) : World :=
  {| ser_in := ser_in w;
     files := <[f := [r]]> (files w);
     disk := <[f := []]> (disk w);
     console := console w |}.

(** [csv_file.close()] on the file opened as [f]: what is buffered goes
    to disk. *)
Definition close (f : string) (w : World) : World :=
  {| ser_in := ser_in w;
     files := files w;
     disk := <[f := default [] (files w !! f)]> (disk w);
     console := console w |}.

(** [func_record_toggle]; [now] is the clock at the click and [open_ok]
    tells whether [open(current_filename, 'w', ...)] succeeds. *)
Definition func_record_toggle (now : Clock) (open_ok : bool) (st : State) : State :=
  let r := recorder st in
  if negb (is_recording r) then
    (* start: a new file *)
    let run_id := S (current_run_id r) in
    let filename := run_filename run_id (now_HMS_compact now) in
    if open_ok then
      {| recorder := {| is_recording := true; current_run_id := run_id;
                        csv_file := Some filename; csv_writer := Some filename;
                        current_filename := filename;
                        last_save_time_str := last_save_time_str r |};
         view := view st;
         world := print (MsgRecording filename)
                    (open_writerow filename header_row (world st));
         widgets := {| btn_record_label := ("STOP (Run " +:+ fmt_d run_id +:+ ")")%string;
                       title := ("Recording to: " +:+ filename)%string;
                       text_left := text_left (widgets st);
                       text_right := text_right (widgets st) |} |}
    else
      (* except Exception: the flag goes back, nothing else does *)
      {| recorder := {| is_recording := false; current_run_id := run_id;
                        csv_file := csv_file r; csv_writer := csv_writer r;
                        current_filename := filename;
                        last_save_time_str := last_save_time_str r |};
         view := view st;
         world := print MsgCreateFailed (world st);
         widgets := widgets st |}
  else
    (* stop: close the file *)
    {| recorder := {| is_recording := false; current_run_id := current_run_id r;
                      csv_file := None;
                      csv_writer := match csv_file r with
                                    | Some _ => None
                                    | None => csv_writer r
                                    end;
                      current_filename := current_filename r;
                      last_save_time_str := last_save_time_str r |};
       view := view st;
       world := match csv_file r with
                | Some f => print (MsgSaved (current_filename r)) (close f (world st))
                | None => world st
                end;
       widgets := {| btn_record_label := "Start New REC";
                     title := ("Plant Monitor - Paused (Last: "
                               +:+ current_filename r +:+ ")")%string;
                     text_left := text_left (widgets st);
                     text_right := text_right (widgets st) |} |}.

(** [func_check]: the check box toggles auto-scaling. *)
Definition func_check (label : string) (st : State) : State :=
  let v := view st in
  {| recorder := recorder st;
     view := {| data_buffer := data_buffer v;
                active_markers := active_markers v;
                is_auto_scale := if decide (label = "Auto Scale"%string)
                                 then negb (is_auto_scale v) else is_auto_scale v;
                last_valid_voltage := last_valid_voltage v;
                pending_event := pending_event v |};
     world := world st;
     widgets := widgets st |}.

(** [func_clear]: the "Reset View" button. *)
Definition func_clear (st : State) : State :=
  let v := view st in
  {| recorder := recorder st;
     view := {| data_buffer :=
                  Deque.extend (Deque.clear (data_buffer v))
                               (replicate MAX_POINTS (last_valid_voltage v));
                active_markers := [];
                is_auto_scale := is_auto_scale v;
                last_valid_voltage := last_valid_voltage v;
                pending_event := pending_event v |};
     world := print MsgViewReset (world st);
     widgets := widgets st |}.

(** [pending_event[0] = label], the body of every preset callback. *)
Definition set_pending (label : string) (v : View) : View :=
  {| data_buffer := data_buffer v;
     active_markers := active_markers v;
     is_auto_scale := is_auto_scale v;
     last_valid_voltage := last_valid_voltage v;
     pending_event := Some label |}.

Definition with_view (f : View -> View) (st : State) : State :=
  {| recorder := recorder st; view := f (view st);
     world := world st; widgets := widgets st |}.

(** [make_callback(label)] *)
Definition make_callback (label : string) (st : State) : State :=
  with_view (set_pending label) st.

(** [func_custom_record]; [text] is [text_box.text]. *)
Definition func_custom_record (text : string) (st : State) : State :=
  if decide (text = ""%string) then st else with_view (set_pending text) st.

(** ** The animation callback [update] *)

(** *** Markers *)

Definition age (m : Marker) : Marker :=
  {| t_lbl := t_lbl m; cur_x := (cur_x m - 1)%Z |}.

(** The first loop over [range(len(active_markers))]: every counter is
    decremented in place and the indices of the markers that went negative
    are collected in [dead_markers]; [i] is the index of the head. *)
Fixpoint age_markers (i : nat) (ms : list Marker) : list Marker * list nat :=
  match ms with
  | [] => ([], [])
  | m :: ms' =>
      let m' := age m in
      let '(aged, dead_markers) := age_markers (S i) ms' in
      (m' :: aged,
       if decide (cur_x m' < 0)%Z then i :: dead_markers else dead_markers)
  end.

(** The second loop: [for i in reversed(dead_markers): active_markers.pop(i)]. *)
Definition pop_markers (dead_markers : list nat) (ms : list Marker) : list Marker :=
  foldl (fun ms i => delete i ms) ms (reverse dead_markers).

Definition move_markers (ms : list Marker) : list Marker :=
  let '(aged, dead_markers) := age_markers 0 ms in
  pop_markers dead_markers aged.

(** *** The pending event *)

(** The event part of the loop body: [note_to_save] starts as [""]; a
    pending label is taken, the register is cleared and a marker is
    appended at [MAX_POINTS - 1]. *)
Definition take_event (v : View) : string * View :=
  match pending_event v with
  | None => (""%string, v)
  | Some label =>
      (label,
       {| data_buffer := data_buffer v;
          active_markers :=
            active_markers v ++ [{| t_lbl := label; cur_x := (Z.of_nat MAX_POINTS - 1)%Z |}];
          is_auto_scale := is_auto_scale v;
          last_valid_voltage := last_valid_voltage v;
          pending_event := None |})
  end.

(** *** The recorder *)

Definition data_row (now : Clock) (voltage : float) (note_to_save : string) : row :=
  [CStr (now_HMS_ms now); CStr (elapsed_3f now); CFloat voltage; CStr note_to_save].

(** [csv_writer.writerow(r)] on the file opened as [f], followed by
    [csv_file.flush()]: the rows written so far are all on disk. *)
Definition writerow (f : string) (r : row) (w : World) : World :=
  {| ser_in := ser_in w;
     files := <[f := default [] (files w !! f) ++ [r]]> (files w);
     disk := <[f := default [] (files w !! f) ++ [r]]> (disk w);
     console := console w |}.

(** [if is_recording and csv_writer: ...] *)
Definition save_row (now : Clock) (voltage : float) (note_to_save : string)
    (st : State) : State :=
  let r := recorder st in
  match is_recording r, csv_writer r with
  | true, Some f =>
      {| recorder := {| is_recording := is_recording r;
                        current_run_id := current_run_id r;
                        csv_file := csv_file r; csv_writer := csv_writer r;
                        current_filename := current_filename r;
                        last_save_time_str := now_HMS now |};
         view := view st;
         world := writerow f (data_row now voltage note_to_save) (world st);
         widgets := widgets st |}
  | _, _ => st
  end.

(** *** One accepted sample *)

(** The body of the inner [try] once [float(raw_line)] has returned
    [voltage]. *)
Definition on_sample (now : Clock) (voltage : float) (st : State) : State :=
  let v := view st in
  let v1 := {| data_buffer := Deque.append (data_buffer v) voltage;
               active_markers := move_markers (active_markers v);
               is_auto_scale := is_auto_scale v;
               last_valid_voltage := voltage;
               pending_event := pending_event v |} in
  let '(note_to_save, v2) := take_event v1 in
  save_row now voltage note_to_save
    {| recorder := recorder st; view := v2; world := world st; widgets := widgets st |}.

Definition set_ser_in (q : list string) (st : State) : State :=
  {| recorder := recorder st; view := view st;
     world := {| ser_in := q; files := files (world st);
                 disk := disk (world st); console := console (world st) |};
     widgets := widgets st |}.

Definition set_widgets (w : Widgets) (st : State) : State :=
  {| recorder := recorder st; view := view st; world := world st; widgets := w |}.

Definition set_console (out : list message) (st : State) : State :=
  {| recorder := recorder st; view := view st;
     world := {| ser_in := ser_in (world st); files := files (world st);
                 disk := disk (world st); console := out |};
     widgets := widgets st |}.

(** Python's [max(a, b)] on two floats: the first argument unless the
    second is greater. *)
Definition py_max (a b : float) : float := if (a <? b)%float then b else a.

(** The limits a tick hands to [ax.set_ylim] when auto-scaling is on:
    the band from minimum to maximum, widened on both sides by a tenth of
    the amplitude or by 0.02, whichever is greater. *)
#[warnings="-inexact-float"]
Definition margin_share : float := 0.1%float.

#[warnings="-inexact-float"]
Definition margin_floor : float := 0.02%float.

Definition auto_margin (amp_val : float) : float :=
  py_max (amp_val * margin_share)%float margin_floor.

Definition auto_ylim (s : Stats) : float * float :=
  let margin := auto_margin (amp_val s) in
  ((min_val s - margin)%float, (max_val s + margin)%float).

(** [ax.set_ylim(bottom, top)] raises [ValueError] when a limit is NaN
    or infinite. *)
Definition set_ylim_raises (lim : float * float) : bool :=
  negb (is_finite lim.1 && is_finite lim.2).

Section update.
Context `{PyLib}.

(** A line as [readline().decode(...).strip()] returns it: an empty line
    is skipped, a line [float()] rejects is dropped. *)
Definition parse_line (raw_line : string) : option float :=
  if decide (raw_line = ""%string) then None else float_of_string raw_line.

Definition on_line (now : Clock) (raw_line : string) (st : State) : State :=
  match parse_line raw_line with
  | Some voltage => on_sample now voltage st
  | None => st
  end.

(** [ser.readline()] takes the first waiting line. *)
Definition readline (st : State) : option (string * State) :=
  match ser_in (world st) with
  | [] => None
  | raw_line :: rest => Some (raw_line, set_ser_in rest st)
  end.

(** [while ser.in_waiting and loop_limit > 0]; [clk n] is the clock
    during the iteration that leaves [loop_limit = n]. *)
Fixpoint read_lines (clk : nat -> Clock) (loop_limit : nat) (st : State) : State :=
  match loop_limit with
  | 0 => st
  | S n =>
      match readline st with
      | None => st
      | Some (raw_line, st') => read_lines clk n (on_line (clk n) raw_line st')
      end
  end.

(** *** Presentation *)

(** [np.diff]: [out[i] = a[i+1] - a[i]]. *)
Fixpoint np_diff (a : list float) : list float :=
  match a with
  | x :: (y :: _) as a' => (y - x)%float :: np_diff a'
  | _ => []
  end.

(** [np.sum] of a boolean array. *)
Definition np_sum (bs : list bool) : nat :=
  foldr (fun (b : bool) n => if b then S n else n) 0 bs.

(** The trend of the buffer [y_data]. *)
Definition classify (y_data : list float) : trend :=
  if decide (50 <= length y_data) then
    let diffs := np_diff (Deque.lastn 50 y_data) in
    let up := np_sum ((fun d => NOISE_THRESHOLD <? d)%float <$> diffs) in
    let down := np_sum ((fun d => d <? - NOISE_THRESHOLD)%float <$> diffs) in
    if decide (down + 5 < up) then Rising
    else if decide (up + 5 < down) then Falling
    else Stable
  else Wait.

Definition statistics (v : View) : Stats :=
  let y_data := Deque.items (data_buffer v) in
  let max_val := np_max y_data in
  let min_val := np_min y_data in
  {| curr_val := last_valid_voltage v;
     max_val := max_val;
     min_val := min_val;
     avg_val := np_mean y_data;
     amp_val := (max_val - min_val)%float;
     trend_str := classify y_data |}.

Definition status (r : Recorder) : status_text :=
  if is_recording r
  then StatusRec (current_run_id r) (current_filename r) (last_save_time_str r)
  else StatusPaused (current_run_id r)
         ("Run_" +:+ fmt_02d (current_run_id r + 1) +:+ "...")%string
         (last_save_time_str r).

(** [update(frame)]: the reading loop, the panels, and last, when
    auto-scaling is on, [ax.set_ylim]; when that call raises, the handler
    around the whole body prints the error (nothing of the tick is undone:
    the call is the last statement). *)
Definition update (clk : nat -> Clock) (st : State) : State :=
  let st := read_lines clk 10 st in
  let stats := statistics (view st) in
  let st :=
    set_widgets {| btn_record_label := btn_record_label (widgets st);
                   title := title (widgets st);
                   text_left := Some (status (recorder st));
                   text_right := Some stats |} st in
  set_console
    (console (world st)
     ++ if is_auto_scale (view st) && set_ylim_raises (auto_ylim stats)
        then [MsgError] else [])
    st.

(** ** Runs of the program *)

Inductive event :=
| EvSerial (lines : list string)            (* lines reach the serial port *)
| EvRecord (now : Clock) (open_ok : bool)   (* a click on the record button *)
| EvCheck (label : string)                  (* a click in the check box *)
| EvClear                                   (* a click on "Reset View" *)
| EvPreset (label : string)                 (* a click on a preset button *)
| EvCustom (text : string)                  (* a click on "Record Note" *)
| EvUpdate (clk : nat -> Clock).            (* a timer tick *)

Definition receive (lines : list string) (st : State) : State :=
  set_ser_in (ser_in (world st) ++ lines) st.

Definition step (e : event) (st : State) : State :=
  match e with
  | EvSerial lines => receive lines st
  | EvRecord now open_ok => func_record_toggle now open_ok st
  | EvCheck label => func_check label st
  | EvClear => func_clear st
  | EvPreset label => make_callback label st
  | EvCustom text => func_custom_record text st
  | EvUpdate clk => update clk st
  end.

Definition run (evs : list event) (st : State) : State := foldl (flip step) st evs.

Definition reachable (st : State) : Prop :=
  exists fs evs, st = run evs (init fs).

(** The samples a run accepts: each tick reads at most ten of the
    waiting lines and accepts those that parse. *)
Definition tick_samples (q : list string) : list float :=
  omap parse_line (take 10 q).

Fixpoint accepted (q : list string) (evs : list event) : list float :=
  match evs with
  | [] => []
  | EvSerial lines :: evs' => accepted (q ++ lines) evs'
  | EvUpdate _ :: evs' => tick_samples q ++ accepted (drop 10 q) evs'
  | _ :: evs' => accepted q evs'
  end.

Definition is_toggle (e : event) : bool :=
  match e with EvRecord _ _ => true | _ => false end.

Definition is_clear (e : event) : bool :=
  match e with EvClear => true | _ => false end.

(** The events that touch the serial port. *)
Definition is_io (e : event) : bool :=
  match e with EvSerial _ | EvUpdate _ => true | _ => false end.

End update.

(** Runs without a click on the record button, without a reset. *)
Definition no_toggle (evs : list event) : bool :=
  forallb (fun e => negb (is_toggle e)) evs.

Definition no_clear (evs : list event) : bool :=
  forallb (fun e => negb (is_clear e)) evs.



(** The recorder is idle (flag down, no file, no writer) or in a session
    (flag up, a file and the writer over it). *)
Definition idle (r : Recorder) : Prop :=
  is_recording r = false /\ csv_file r = None /\ csv_writer r = None.

Definition active (r : Recorder) : Prop :=
  is_recording r = true /\ exists f, csv_file r = Some f /\ csv_writer r = Some f.

(** The header as section 4.4 of the specification spells its fields. *)
Definition spec_header_row : row :=
  [CStr "Timestamp"; CStr "ElapsedSeconds"; CStr "Voltage"; CStr "EventNote"].

(** The trend as section 4.5 of the specification words it: the first
    differences of the last 50 samples are the differences of consecutive
    samples; those above the threshold count as up, those below its
    negation as down. *)
Definition first_differences (w : list float) : list float :=
  zip_with (fun a b => (b - a)%float) w (drop 1 w).

Definition steps_up (diffs : list float) : nat :=
  length (filter (fun d => (NOISE_THRESHOLD <? d)%float = true) diffs).

Definition steps_down (diffs : list float) : nat :=
  length (filter (fun d => (d <? - NOISE_THRESHOLD)%float = true) diffs).

Definition trend_spec (y_data : list float) : trend :=
  if decide (length y_data < 50) then Wait
  else
    let diffs := first_differences (Deque.lastn 50 y_data) in
    if decide (steps_down diffs + 5 < steps_up diffs) then Rising
    else if decide (steps_up diffs + 5 < steps_down diffs) then Falling
    else Stable.

(** A marker whose counter has not gone negative. *)
Definition alive (m : Marker) : Prop := (0 <= cur_x m)%Z.

(** The buffer as the presentation reads it. *)
Definition snapshot (st : State) : list float := Deque.items (data_buffer (view st)).

(** The buffer holds [MAX_POINTS] items and its bound is [MAX_POINTS]. *)
Definition full (st : State) : Prop :=
  Deque.maxlen (data_buffer (view st)) = MAX_POINTS
  /\ length (snapshot st) = MAX_POINTS.

(** ** More of the script: what a tick draws, and bookkeeping for runs *)

(** The red series of a tick, [y_error]: a copy of the buffer in which
    every sample inside the band from 0 to 5 is replaced by NaN, so that
    only the samples outside it are drawn. *)
Definition y_error (y_data : list float) : list float :=
  (fun v => if ((0 <=? v) && (v <=? 5))%float then nan else v) <$> y_data.

(** The clicks of a run that start a session or try to: a click on the
    record button counts when the flag is down; [rec] is the flag before
    the run. *)
Fixpoint starts (rec : bool) (evs : list event) : nat :=
  match evs with
  | [] => 0
  | EvRecord _ open_ok :: evs' =>
      if rec then starts false evs' else S (starts open_ok evs')
  | _ :: evs' => starts rec evs'
  end.

(** The recorder, the file system and the record button agree: during a
    session the file and the writer are those of [current_filename], the
    name is the one of the current run, the file begins with the header,
    the button offers to stop that run and the title names the file;
    otherwise no file is open and the button offers to start. *)
Definition recorder_ok (st : State) : Prop :=
  let r := recorder st in
  if is_recording r then
    csv_file r = Some (current_filename r)
    /\ csv_writer r = Some (current_filename r)
    /\ (exists ts, current_filename r = run_filename (current_run_id r) ts)
    /\ (exists rows, files (world st) !! current_filename r = Some (header_row :: rows))
    /\ btn_record_label (widgets st)
       = ("STOP (Run " +:+ fmt_d (current_run_id r) +:+ ")")%string
    /\ title (widgets st) = ("Recording to: " +:+ current_filename r)%string
  else
    csv_file r = None
    /\ csv_writer r = None
    /\ (btn_record_label (widgets st) = "Start REC"%string
        \/ btn_record_label (widgets st) = "Start New REC"%string).

(** The file system and the file objects agree: during a session the
    file being written is empty on disk as long as only the header was
    written, and holds every row written once a sample was saved; every
    other file is on disk as written.  Outside a session everything
    written is on disk. *)
Definition disk_ok (st : State) : Prop :=
  let r := recorder st in
  if is_recording r then
    (exists rows,
       files (world st) !! current_filename r = Some (header_row :: rows)
       /\ disk (world st) !! current_filename r
          = Some (match rows with [] => [] | _ :: _ => header_row :: rows end))
    /\ (forall f, f <> current_filename r ->
                  disk (world st) !! f = files (world st) !! f)
  else disk (world st) = files (world st).

(** A string without the separator of the file names. *)
Fixpoint underscore_free (s : string) : Prop :=
  match s with
  | EmptyString => True
  | String c s' => c <> "_"%char /\ underscore_free s'
  end.

(** The markers from the oldest to the newest have strictly increasing
    positions, all on the chart. *)
Definition markers_ok (ms : list Marker) : Prop :=
  StronglySorted Z.lt (cur_x <$> ms)
  /\ Forall (fun m => (0 <= cur_x m <= Z.of_nat MAX_POINTS - 1)%Z) ms.

(** A sequence of accepted samples, each with the clock of its iteration
    and the label, if any, that was set since the sample before. *)
Definition tagged_sample (x : Clock * float * option string) (st : State) : State :=
  let '(now, v, tag) := x in
  on_sample now v (match tag with
                   | Some label => make_callback label st
                   | None => st
                   end).

Definition feed (xs : list (Clock * float * option string)) (st : State) : State :=
  foldl (flip tagged_sample) st xs.

(** ** A reader for the examples

    An instance of [PyLib] to run the model on concrete lines: unsigned
    decimal numerals [ddd] and [ddd.ddd], on which it returns the double
    that [float()] returns (the quotient of two exactly represented
    integers, correctly rounded), and plain folds for the reductions. *)

Module Example.

Definition digit (c : Ascii.ascii) : option Z :=
  let n := Ascii.nat_of_ascii c in
  if decide (48 <= n <= 57) then Some (Z.of_nat n - 48)%Z else None.

(** The digits of [s] read after [acc]; [None] on any other character. *)
Fixpoint digits (acc : Z) (s : string) : option Z :=
  match s with
  | EmptyString => Some acc
  | String c s' => d ← digit c; digits (10 * acc + d)%Z s'
  end.

(** [s] split at its first dot, if any. *)
Fixpoint split_dot (s : string) : string * option string :=
  match s with
  | EmptyString => (EmptyString, None)
  | String c s' =>
      if decide (c = "."%char) then (EmptyString, Some s')
      else let '(a, b) := split_dot s' in (String c a, b)
  end.

Definition float_of_Z (z : Z) : float := PrimFloat.of_uint63 (Uint63.of_Z z).

Definition float_of_decimal (s : string) : option float :=
  let '(int_part, frac_part) := split_dot s in
  let frac := default EmptyString frac_part in
  if decide (int_part = EmptyString \/ frac_part = Some EmptyString
             \/ 15 < String.length int_part + String.length frac) then None
  else
    m ← digits 0 (int_part +:+ frac);
    Some (float_of_Z m / float_of_Z (10 ^ Z.of_nat (String.length frac)))%float.

Definition fmax (l : list float) : float :=
  match l with
  | [] => nan
  | x :: l' => foldl (fun a b => if (a <? b)%float then b else a) x l'
  end.

Definition fmin (l : list float) : float :=
  match l with
  | [] => nan
  | x :: l' => foldl (fun a b => if (b <? a)%float then b else a) x l'
  end.

Definition fmean (l : list float) : float :=
  (foldl PrimFloat.add 0 l / float_of_Z (Z.of_nat (length l)))%float.

Definition lib : PyLib :=
  {| float_of_string := float_of_decimal;
     np_max := fmax; np_min := fmin; np_mean := fmean |}.

Definition clock0 : Clock :=
  {| now_HMS_compact := "143000"; now_HMS := "14:30:00";
     now_HMS_ms := "14:30:00.000"; elapsed_3f := "12.500" |}.

Definition clock1 : Clock :=
  {| now_HMS_compact := "143100"; now_HMS := "14:31:00";
     now_HMS_ms := "14:31:00.000"; elapsed_3f := "72.500" |}.

(** Fifty samples climbing by 10 mV a step, the same falling. *)
Definition ramp_up : list float :=
  (fun i => (float_of_Z (Z.of_nat i) / 100)%float) <$> seq 0 50.

Definition ramp_down : list float := reverse ramp_up.

End Example.

(** ** Facts on bounded deques *)

Module DequeFacts.
Import Deque.

Section facts.
Context {A : Type}.
Implicit Types (d : deque A) (l k : list A).

Lemma maxlen_append d x : maxlen (append d x) = maxlen d.
Proof. done. Qed.

Lemma maxlen_extend xs : forall d, maxlen (extend d xs) = maxlen d.
Proof. induction xs as [|x xs IH]; intros d; [done|]. simpl. by rewrite IH. Qed.

Lemma lastn_length n (l : list A) : length (lastn n l) = min n (length l).
Proof. unfold lastn. rewrite length_drop. lia. Qed.

Lemma lastn_all n (l : list A) : length l <= n -> lastn n l = l.
Proof. intros H. unfold lastn. by replace (length l - n) with 0 by lia. Qed.

Lemma lastn_app_r n (l k : list A) : n <= length k -> lastn n (l ++ k) = lastn n k.
Proof.
  intros H. unfold lastn. rewrite length_app, drop_app.
  rewrite (drop_ge l) by lia. simpl. f_equal. lia.
Qed.

Lemma lastn_app_l n (l k : list A) :
  length k <= n -> lastn n (l ++ k) = lastn (n - length k) l ++ k.
Proof.
  intros H. unfold lastn. rewrite length_app, drop_app.
  replace (length l + length k - n - length l) with 0 by lia. simpl.
  do 2 f_equal. lia.
Qed.

Lemma lastn_snoc n (l : list A) x :
  lastn n (l ++ [x]) = if decide (n = 0) then [] else lastn (n - 1) l ++ [x].
Proof.
  case_decide as Hn.
  - subst. unfold lastn. rewrite Nat.sub_0_r. by rewrite drop_all.
  - rewrite lastn_app_l by (simpl; lia). done.
Qed.

Lemma lastn_lastn n (l : list A) : lastn n (lastn n l) = lastn n l.
Proof. apply lastn_all. rewrite lastn_length. lia. Qed.

(** A deque that holds at most [maxlen] items keeps, after an append,
    the last [maxlen] items of the extended sequence. *)
Lemma items_append d x :
  length (items d) <= maxlen d ->
  items (append d x) = lastn (maxlen d) (items d ++ [x]).
Proof.
  intros Hle. unfold append, lastn. simpl.
  rewrite length_app. simpl. case_decide as Hlt.
  - f_equal. lia.
  - replace (length (items d) + 1 - maxlen d) with 0 by lia. done.
Qed.

Lemma length_append_le d x :
  length (items d) <= maxlen d -> length (items (append d x)) <= maxlen d.
Proof. intros H. rewrite items_append by done. rewrite lastn_length. lia. Qed.

Lemma lastn_lastn_app n (l k : list A) :
  lastn n (lastn n l ++ k) = lastn n (l ++ k).
Proof.
  destruct (decide (length l <= n)) as [Hle|Hgt].
  - by rewrite (lastn_all n l).
  - unfold lastn. rewrite !length_app, length_drop, !drop_app, drop_drop, length_drop.
    f_equal; f_equal; lia.
Qed.

Lemma items_extend xs : forall d,
  length (items d) <= maxlen d ->
  items (extend d xs) = lastn (maxlen d) (items d ++ xs)
  /\ length (items (extend d xs)) <= maxlen d.
Proof.
  induction xs as [|x xs IH]; intros d Hle.
  - simpl. rewrite app_nil_r. split; [|done]. by rewrite lastn_all.
  - simpl. destruct (IH (append d x)) as [IH1 IH2].
    { rewrite maxlen_append. by apply length_append_le. }
    rewrite maxlen_append in IH1, IH2. split; [|done].
    rewrite IH1, items_append by done.
    rewrite lastn_lastn_app. by rewrite <- (assoc_L (++)).
Qed.

End facts.

End DequeFacts.

(** ** Invariants of the tick and of runs *)

Lemma MAX_POINTS_pos : 0 < MAX_POINTS.
Proof. unfold MAX_POINTS. lia. Qed.

Lemma MAX_POINTS_window : 50 <= MAX_POINTS.
Proof. unfold MAX_POINTS. lia. Qed.

(** The proofs below use no more of [MAX_POINTS] than that, except by
  evaluation. *)
#[global] Opaque MAX_POINTS.

Section invariants.
Context `{PyLib}.

Lemma ser_in_save_row now v note st :
  ser_in (world (save_row now v note st)) = ser_in (world st).
Proof.
  unfold save_row.
  by destruct (is_recording (recorder st)), (csv_writer (recorder st)).
Qed.

Lemma ser_in_on_sample now v st :
  ser_in (world (on_sample now v st)) = ser_in (world st).
Proof.
  unfold on_sample. destruct (take_event _) as [note v2].
  by rewrite ser_in_save_row.
Qed.

(** A property of the state that is indexed by the samples accepted so
    far, ignores the waiting lines, and is kept by one accepted sample,
    is kept by the reading loop: the loop accepts the lines that parse
    among the first [loop_limit] waiting ones and leaves the others. *)
Lemma read_lines_inv (I : list float -> State -> Prop) clk :
  (forall vs st q, I vs st -> I vs (set_ser_in q st)) ->
  (forall vs st now v, I vs st -> I (vs ++ [v]) (on_sample now v st)) ->
  forall loop_limit st vs, I vs st ->
    I (vs ++ omap parse_line (take loop_limit (ser_in (world st))))
      (read_lines clk loop_limit st)
    /\ ser_in (world (read_lines clk loop_limit st))
       = drop loop_limit (ser_in (world st)).
Proof.
  intros Hser Hsample. induction loop_limit as [|n IH]; intros st vs HI.
  - simpl. rewrite app_nil_r, drop_0. done.
  - simpl. unfold readline.
    destruct (ser_in (world st)) as [|raw_line rest] eqn:Hq.
    + simpl. rewrite app_nil_r. done.
    + simpl. unfold on_line.
      destruct (parse_line raw_line) as [voltage|] eqn:Hparse.
      * destruct (IH (on_sample (clk n) voltage (set_ser_in rest st)) (vs ++ [voltage]))
          as [IH1 IH2]; [by apply Hsample, Hser|].
        rewrite ser_in_on_sample in IH1, IH2. simpl in IH1, IH2.
        split; [|done]. by rewrite <- (assoc_L (++)) in IH1.
      * destruct (IH (set_ser_in rest st) vs) as [IH1 IH2]; [by apply Hser|].
        done.
Qed.

Lemma ser_in_step e st :
  is_io e = false -> ser_in (world (step e st)) = ser_in (world st).
Proof.
  destruct e; try done; intros _; simpl.
  - unfold func_record_toggle.
    destruct (is_recording (recorder st)); simpl;
      [by destruct (csv_file (recorder st))|].
    by destruct open_ok.
  - unfold func_custom_record. by case_decide.
Qed.

(** The same for runs: a property kept by every callback that the run
    is allowed to contain ([ok]) holds at its end, for the samples the
    run accepted. *)
Lemma run_inv (I : list float -> State -> Prop) (ok : event -> bool) :
  (forall vs st q, I vs st -> I vs (set_ser_in q st)) ->
  (forall vs st w, I vs st -> I vs (set_widgets w st)) ->
  (forall vs st out, I vs st -> I vs (set_console out st)) ->
  (forall vs st now v, I vs st -> I (vs ++ [v]) (on_sample now v st)) ->
  (forall vs st e, ok e = true -> is_io e = false -> I vs st -> I vs (step e st)) ->
  forall evs st vs, forallb ok evs = true -> I vs st ->
    I (vs ++ accepted (ser_in (world st)) evs) (run evs st).
Proof.
  intros Hser Hwid Hout Hsample Hstep.
  induction evs as [|e evs IH]; intros st vs Hok HI.
  - simpl. by rewrite app_nil_r.
  - simpl in Hok. apply andb_prop in Hok as [Hoke Hok].
    unfold run. simpl. fold (run evs (step e st)).
    destruct (is_io e) eqn:Hio.
    + destruct e; try done; simpl.
      * specialize (IH (receive lines st) vs Hok). simpl in IH.
        apply IH. by apply Hser.
      * destruct (read_lines_inv I clk Hser Hsample 10 st vs HI) as [H1 H2].
        unfold update.
        set (st' := read_lines clk 10 st) in *.
        set (w := Build_Widgets _ _ _ _).
        set (out := console _ ++ _).
        specialize (IH (set_console out (set_widgets w st')) _ Hok
                       (Hout _ _ out (Hwid _ _ w H1))).
        simpl in IH. rewrite H2 in IH.
        unfold tick_samples. by rewrite (assoc_L (++)).
    + specialize (IH (step e st) vs Hok (Hstep _ _ _ Hoke Hio HI)).
      rewrite ser_in_step in IH by done.
      by destruct e.
Qed.

End invariants.

(** ** The ring buffer *)

Section ring_buffer.
Context `{PyLib}.

Lemma snapshot_init fs : snapshot (init fs) = replicate MAX_POINTS 0%float.
Proof. vm_compute. reflexivity. Qed.

Lemma full_init fs : full (init fs).
Proof. split; [reflexivity|]. by rewrite snapshot_init, length_replicate. Qed.

Lemma data_buffer_on_sample now v st :
  data_buffer (view (on_sample now v st)) = Deque.append (data_buffer (view st)) v.
Proof.
  unfold on_sample, take_event, save_row. simpl.
  destruct (pending_event (view st)); simpl;
    by destruct (is_recording (recorder st)), (csv_writer (recorder st)).
Qed.

Lemma data_buffer_step e st :
  is_io e = false -> is_clear e = false ->
  data_buffer (view (step e st)) = data_buffer (view st).
Proof.
  destruct e; try done; intros _ _; simpl.
  - unfold func_record_toggle.
    destruct (is_recording (recorder st)); simpl; [done|]. by destruct open_ok.
  - unfold func_custom_record. by case_decide.
Qed.

Lemma snapshot_clear st :
  Deque.maxlen (data_buffer (view st)) = MAX_POINTS ->
  snapshot (func_clear st) = replicate MAX_POINTS (last_valid_voltage (view st)).
Proof.
  intros Hmax. unfold snapshot, func_clear. simpl.
  destruct (DequeFacts.items_extend (replicate MAX_POINTS (last_valid_voltage (view st)))
              (Deque.clear (data_buffer (view st)))) as [-> _]; simpl; [lia|].
  rewrite Hmax. apply DequeFacts.lastn_all. by rewrite length_replicate.
Qed.

(** The buffer after pushing [vs] on a buffer that respects its bound. *)
Lemma snapshot_extend (d : Deque.deque float) vs :
  length (Deque.items d) <= Deque.maxlen d ->
  Deque.items (Deque.extend d vs) = Deque.lastn (Deque.maxlen d) (Deque.items d ++ vs).
Proof. intros Hle. by destruct (DequeFacts.items_extend vs d Hle). Qed.

(** Every run keeps the buffer full. *)
Lemma full_run evs st : full st -> full (run evs st).
Proof.
  intros Hfull.
  pose proof (run_inv (fun _ st => full st) (fun _ => true)) as Hinv.
  apply (Hinv) with (vs := []) (st := st); try done.
  - clear. intros _ st now v [Hmax Hlen]. unfold full, snapshot in *.
    rewrite data_buffer_on_sample. split; [done|].
    rewrite DequeFacts.items_append by lia. rewrite DequeFacts.lastn_length, length_app.
    simpl. lia.
  - clear. intros _ st e _ Hio [Hmax Hlen].
    destruct (is_clear e) eqn:Hclear.
    + destruct e; try done. simpl. split; [done|].
      rewrite snapshot_clear by done. by rewrite length_replicate.
    + unfold full, snapshot. by rewrite data_buffer_step.
  - clear. by induction evs.
Qed.

Lemma full_reachable st : reachable st -> full st.
Proof. intros (fs & evs & ->). apply full_run, full_init. Qed.

(** Without a reset, the buffer is the window over what it held at the
    start followed by the samples accepted since. *)
Lemma snapshot_run evs st :
  full st -> no_clear evs = true ->
  snapshot (run evs st)
  = Deque.lastn MAX_POINTS (snapshot st ++ accepted (ser_in (world st)) evs).
Proof.
  intros Hfull Hev.
  pose proof (run_inv
    (fun vs st' => full st'
       /\ snapshot st' = Deque.lastn MAX_POINTS (snapshot st ++ vs))
    (fun e => negb (is_clear e))) as Hinv.
  apply (Hinv) with (vs := []) (st := st); try done.
  - clear. intros vs st' now v [[Hmax Hlen] Hsnap]. unfold full, snapshot in *.
    rewrite data_buffer_on_sample. split.
    + split; [done|]. rewrite DequeFacts.items_append by lia.
      rewrite DequeFacts.lastn_length, length_app. simpl. lia.
    + rewrite DequeFacts.items_append by lia. rewrite Hmax, Hsnap.
      rewrite DequeFacts.lastn_lastn_app. by rewrite (assoc_L (++)).
  - clear. intros vs st' e Hclear Hio [[Hmax Hlen] Hsnap].
    apply negb_true_iff in Hclear.
    unfold full, snapshot in *. by rewrite data_buffer_step.
  - split; [done|]. rewrite app_nil_r, DequeFacts.lastn_all; [done|].
    destruct Hfull as [_ ->]. done.
Qed.

End ring_buffer.

(** C1.  The ring buffer always holds exactly [MAX_POINTS] items: after any
    sequence of pushes on a full buffer (the one built at start-up, which
    holds [MAX_POINTS] fillers, or the one of any later state) the
    snapshot has [MAX_POINTS] items and is the window of that length over
    the earlier content followed by the pushed samples, in arrival order.
    Once [MAX_POINTS] samples have been pushed it is exactly the last
    [MAX_POINTS] of them; before that it is the remaining earlier items
    followed by all the pushed samples.  Each push evicts the oldest
    item, and an accepted sample is one push. *)
Theorem ring_buffer_window (st : State) (pushes : list float) :
  full st ->
  let buf := Deque.extend (data_buffer (view st)) pushes in
  length (Deque.items buf) = MAX_POINTS
  /\ Deque.items buf = Deque.lastn MAX_POINTS (snapshot st ++ pushes)
  /\ (MAX_POINTS <= length pushes ->
      Deque.items buf = Deque.lastn MAX_POINTS pushes)
  /\ (length pushes <= MAX_POINTS ->
      Deque.items buf = drop (length pushes) (snapshot st) ++ pushes)
  /\ (forall x, Deque.items (Deque.append buf x) = drop 1 (Deque.items buf) ++ [x])
  /\ (forall now x, snapshot (on_sample now x st) = drop 1 (snapshot st) ++ [x]).
Proof.
  intros [Hmax Hlen] buf. unfold snapshot in *.
  assert (Hwin : Deque.items buf
                 = Deque.lastn MAX_POINTS (Deque.items (data_buffer (view st)) ++ pushes)).
  { unfold buf. rewrite snapshot_extend by lia. by rewrite Hmax. }
  assert (Hfull : length (Deque.items buf) = MAX_POINTS).
  { rewrite Hwin, DequeFacts.lastn_length, length_app. lia. }
  split_and!; try done.
  - intros Hge. rewrite Hwin. by apply DequeFacts.lastn_app_r.
  - intros Hle. rewrite Hwin, DequeFacts.lastn_app_l by done.
    f_equal. unfold Deque.lastn. f_equal. lia.
  - intros x. rewrite DequeFacts.items_append.
    + unfold buf at 1. rewrite DequeFacts.maxlen_extend, Hmax.
      unfold Deque.lastn. rewrite length_app, drop_app, Hfull. simpl.
      pose proof MAX_POINTS_pos.
      replace (MAX_POINTS + 1 - MAX_POINTS) with 1 by lia.
      by replace (1 - MAX_POINTS + (MAX_POINTS - MAX_POINTS)) with 0 by lia.
    + unfold buf at 2. rewrite DequeFacts.maxlen_extend. lia.
  - intros now x. rewrite data_buffer_on_sample, DequeFacts.items_append by lia.
    unfold Deque.lastn. rewrite length_app, drop_app, Hmax, Hlen. simpl.
    pose proof MAX_POINTS_pos.
    replace (MAX_POINTS + 1 - MAX_POINTS) with 1 by lia.
    by replace (1 - MAX_POINTS + (MAX_POINTS - MAX_POINTS)) with 0 by lia.
Qed.

(** The start-up buffer after two samples: 298 fillers, then the samples. *)
Lemma ring_buffer_window_witness :
  let buf := Deque.extend (data_buffer (view (init ∅))) [1.5; 2.5]%float in
  length (Deque.items buf) = 300
  /\ Deque.items buf = replicate 298 0%float ++ [1.5; 2.5]%float.
Proof.
  intros buf.
  destruct (ring_buffer_window (init ∅) [1.5; 2.5]%float (full_init ∅))
    as (Hlen & _ & _ & Hitems & _).
  split; [exact Hlen|].
  etransitivity; [apply Hitems|].
  - apply (bool_decide_unpack _). vm_compute. exact I.
  - vm_compute. reflexivity.
Defined.

(** ** Markers *)

Section markers.
Context `{PyLib}.

Lemma age_markers_aged ms : forall i, (age_markers i ms).1 = age <$> ms.
Proof.
  induction ms as [|m ms IH]; intros i; [done|].
  simpl. specialize (IH (S i)). destruct (age_markers (S i) ms) as [aged dead].
  simpl in *. by rewrite IH.
Qed.

(** The indices collected from a later start are the same, shifted. *)
Lemma age_markers_dead_S ms : forall i,
  (age_markers (S i) ms).2 = S <$> (age_markers i ms).2.
Proof.
  induction ms as [|m ms IH]; intros i; [done|].
  simpl. specialize (IH (S i)).
  destruct (age_markers (S (S i)) ms) as [aged2 dead2],
           (age_markers (S i) ms) as [aged1 dead1].
  simpl in *. subst dead2. by case_decide.
Qed.

(** Popping indices that all lie behind the head leaves the head. *)
Lemma pop_behind_head (m : Marker) js : forall ms,
  foldl (fun ms i => delete i ms) (m :: ms) (S <$> js)
  = m :: foldl (fun ms i => delete i ms) ms js.
Proof. induction js as [|j js IH]; intros ms; [done|]. simpl. by rewrite IH. Qed.

(** The two loops together: every marker is aged once and exactly the
    markers whose counter went negative are removed. *)
Lemma move_markers_filter ms : move_markers ms = filter alive (age <$> ms).
Proof.
  unfold move_markers.
  pose proof (age_markers_aged ms 0) as Haged.
  destruct (age_markers 0 ms) as [aged dead] eqn:Hloop. simpl in Haged. subst aged.
  revert dead Hloop. induction ms as [|m ms IH]; intros dead Hloop.
  - simpl in Hloop. by injection Hloop as <-.
  - simpl in Hloop.
    pose proof (age_markers_dead_S ms 0) as Hshift.
    pose proof (age_markers_aged ms 1) as Haged1.
    pose proof (age_markers_aged ms 0) as Haged0.
    destruct (age_markers 1 ms) as [aged1 dead1].
    destruct (age_markers 0 ms) as [aged0 dead0].
    simpl in *. subst aged1 aged0 dead1.
    specialize (IH dead0 eq_refl).
    injection Hloop as <-. unfold pop_markers in *.
    change (list_fmap Marker Marker age ms) with (age <$> ms).
    rewrite filter_cons. unfold alive at 1. simpl.
    case_decide as Hneg; case_decide as Halive; try lia.
    + rewrite reverse_cons, foldl_app, <- fmap_reverse, pop_behind_head. simpl.
      by rewrite IH.
    + rewrite <- fmap_reverse, pop_behind_head. by rewrite IH.
Qed.

Lemma on_sample_view now v st :
  view (on_sample now v st)
  = (take_event {| data_buffer := Deque.append (data_buffer (view st)) v;
                   active_markers := move_markers (active_markers (view st));
                   is_auto_scale := is_auto_scale (view st);
                   last_valid_voltage := v;
                   pending_event := pending_event (view st) |}).2.
Proof.
  unfold on_sample. destruct (take_event _) as [note v2]. unfold save_row. simpl.
  by destruct (is_recording (recorder st)), (csv_writer (recorder st)).
Qed.

Lemma active_markers_step e st :
  is_io e = false ->
  active_markers (view (step e st))
  = if is_clear e then [] else active_markers (view st).
Proof.
  destruct e; try done; intros _; simpl.
  - unfold func_record_toggle.
    destruct (is_recording (recorder st)); simpl; [done|]. by destruct open_ok.
  - unfold func_custom_record. by case_decide.
Qed.

End markers.

(** C7.  One accepted sample decrements the counter of every active
    marker exactly once (the list after it is the list before with every
    counter lowered by 1) and removes exactly the markers whose counter
    went negative (those with a counter of 0 or more stay, in order); a
    marker is added only by a sample that finds a pending event, which it
    consumes.  A line that is not accepted leaves the
    state as it is, and no other callback adds a marker (the reset
    empties the list). *)
Theorem markers_per_sample `{PyLib} (now : Clock) (v : float) (st : State) :
  active_markers (view (on_sample now v st))
  = filter (fun m => (0 <= cur_x m)%Z)
      ((fun m => {| t_lbl := t_lbl m; cur_x := (cur_x m - 1)%Z |})
         <$> active_markers (view st))
    ++ match pending_event (view st) with
       | Some label => [{| t_lbl := label; cur_x := (Z.of_nat MAX_POINTS - 1)%Z |}]
       | None => []
       end
  /\ pending_event (view (on_sample now v st)) = None
  /\ (forall raw_line, parse_line raw_line = None -> on_line now raw_line st = st)
  /\ (forall e, is_io e = false ->
      active_markers (view (step e st))
      = if is_clear e then [] else active_markers (view st))
  /\ (forall lines,
      active_markers (view (step (EvSerial lines) st)) = active_markers (view st)).
Proof.
  split_and!.
  - rewrite on_sample_view. unfold take_event. simpl.
    rewrite move_markers_filter.
    change (filter alive (age <$> active_markers (view st)))
      with (filter (fun m => (0 <= cur_x m)%Z)
              ((fun m => {| t_lbl := t_lbl m; cur_x := (cur_x m - 1)%Z |})
                 <$> active_markers (view st))).
    destruct (pending_event (view st)); simpl; [done|]. by rewrite app_nil_r.
  - rewrite on_sample_view. unfold take_event. simpl.
    by destruct (pending_event (view st)).
  - intros raw_line Hparse. unfold on_line. by rewrite Hparse.
  - intros e Hio. by apply active_markers_step.
  - done.
Qed.

(** ** The recorder *)

Section recorder.
Context `{PyLib}.

(** What identifies the session is untouched by a sample. *)
Lemma session_fields_on_sample now v st :
  is_recording (recorder (on_sample now v st)) = is_recording (recorder st)
  /\ current_run_id (recorder (on_sample now v st)) = current_run_id (recorder st)
  /\ csv_file (recorder (on_sample now v st)) = csv_file (recorder st)
  /\ csv_writer (recorder (on_sample now v st)) = csv_writer (recorder st)
  /\ current_filename (recorder (on_sample now v st)) = current_filename (recorder st)
  /\ widgets (on_sample now v st) = widgets st.
Proof.
  unfold on_sample. destruct (take_event _) as [note v2]. unfold save_row. simpl.
  destruct (is_recording (recorder st)) eqn:Hrec,
           (csv_writer (recorder st)) eqn:Hwriter; simpl; auto 10.
Qed.

Lemma session_fields_read_lines clk loop_limit st :
  let st' := read_lines clk loop_limit st in
  is_recording (recorder st') = is_recording (recorder st)
  /\ current_run_id (recorder st') = current_run_id (recorder st)
  /\ csv_file (recorder st') = csv_file (recorder st)
  /\ csv_writer (recorder st') = csv_writer (recorder st)
  /\ current_filename (recorder st') = current_filename (recorder st)
  /\ widgets st' = widgets st.
Proof.
  pose proof (read_lines_inv
    (fun _ st' =>
       is_recording (recorder st') = is_recording (recorder st)
       /\ current_run_id (recorder st') = current_run_id (recorder st)
       /\ csv_file (recorder st') = csv_file (recorder st)
       /\ csv_writer (recorder st') = csv_writer (recorder st)
       /\ current_filename (recorder st') = current_filename (recorder st)
       /\ widgets st' = widgets st) clk) as Hinv.
  apply (Hinv) with (vs := []); try done.
  clear. intros _ st' now v Hst'.
  by destruct (session_fields_on_sample now v st') as (-> & -> & -> & -> & -> & ->).
Qed.

Lemma session_fields_update clk st :
  is_recording (recorder (update clk st)) = is_recording (recorder st)
  /\ current_run_id (recorder (update clk st)) = current_run_id (recorder st)
  /\ csv_file (recorder (update clk st)) = csv_file (recorder st)
  /\ csv_writer (recorder (update clk st)) = csv_writer (recorder st)
  /\ current_filename (recorder (update clk st)) = current_filename (recorder st)
  /\ btn_record_label (widgets (update clk st)) = btn_record_label (widgets st)
  /\ title (widgets (update clk st)) = title (widgets st).
Proof.
  destruct (session_fields_read_lines clk 10 st) as (H1 & H2 & H3 & H4 & H5 & H6).
  exact (conj H1 (conj H2 (conj H3 (conj H4 (conj H5
          (conj (f_equal btn_record_label H6) (f_equal title H6))))))).
Qed.

Lemma recorder_take_event_save now v v1 st :
  is_recording (recorder st) = false ->
  let '(note, v2) := take_event v1 in
  recorder (save_row now v note
              {| recorder := recorder st; view := v2;
                 world := world st; widgets := widgets st |}) = recorder st
  /\ world (save_row now v note
              {| recorder := recorder st; view := v2;
                 world := world st; widgets := widgets st |}) = world st.
Proof.
  intros Hidle. destruct (take_event v1) as [note v2].
  unfold save_row. simpl. by rewrite Hidle.
Qed.

(** While the flag is down a sample touches neither the recorder nor the
    world. *)
Lemma on_sample_not_recording now v st :
  is_recording (recorder st) = false ->
  recorder (on_sample now v st) = recorder st
  /\ world (on_sample now v st) = world st.
Proof.
  intros Hidle. unfold on_sample.
  pose proof (recorder_take_event_save now v
    {| data_buffer := Deque.append (data_buffer (view st)) v;
       active_markers := move_markers (active_markers (view st));
       is_auto_scale := is_auto_scale (view st);
       last_valid_voltage := v;
       pending_event := pending_event (view st) |} st Hidle) as Hsave.
  by destruct (take_event _) as [note v2].
Qed.

(** Only the record button changes the recorder, the files and what was
    printed about them. *)
Lemma recorder_step e st :
  is_io e = false -> is_toggle e = false ->
  recorder (step e st) = recorder st
  /\ files (world (step e st)) = files (world st).
Proof.
  destruct e; try done; intros _ _; simpl.
  unfold func_custom_record. by case_decide.
Qed.

(** With the flag down and no click on the record button, a run leaves
    the recorder and the files alone. *)
Lemma recorder_run_not_recording evs st :
  is_recording (recorder st) = false -> no_toggle evs = true ->
  recorder (run evs st) = recorder st
  /\ files (world (run evs st)) = files (world st).
Proof.
  intros Hidle Hev.
  pose proof (run_inv
    (fun _ st' => recorder st' = recorder st
                  /\ files (world st') = files (world st))
    (fun e => negb (is_toggle e))) as Hinv.
  apply (Hinv) with (vs := []) (st := st); try done.
  - clear Hinv Hev. intros _ st' now v [Hrec Hfiles].
    destruct (on_sample_not_recording now v st') as [-> ->]; [|done].
    by rewrite Hrec.
  - clear. intros _ st' e Htog Hio [Hrec Hfiles].
    apply negb_true_iff in Htog.
    destruct (recorder_step e st' Hio Htog) as [-> ->]. done.
Qed.



Lemma recorder_on_sample now v st :
  is_recording (recorder (on_sample now v st)) = is_recording (recorder st)
  /\ csv_file (recorder (on_sample now v st)) = csv_file (recorder st)
  /\ csv_writer (recorder (on_sample now v st)) = csv_writer (recorder st).
Proof.
  unfold on_sample. destruct (take_event _) as [note v2]. unfold save_row. simpl.
  destruct (is_recording (recorder st)) eqn:Hrec,
           (csv_writer (recorder st)) eqn:Hwriter; simpl; auto.
Qed.

(** Every state the program reaches is idle or in a session. *)
Lemma idle_or_active_reachable st :
  reachable st -> idle (recorder st) \/ active (recorder st).
Proof.
  intros (fs & evs & ->).
  pose proof (run_inv
    (fun _ st' => idle (recorder st') \/ active (recorder st'))
    (fun _ => true)) as Hinv.
  apply (Hinv) with (vs := []) (st := init fs); try done.
  - clear. intros _ st now v Hst. unfold idle, active in *.
    by destruct (recorder_on_sample now v st) as (-> & -> & ->).
  - clear. intros _ st e _ Hio Hst.
    destruct (is_toggle e) eqn:Htog.
    + destruct e; try done. simpl. unfold func_record_toggle, idle, active in *.
      destruct Hst as [(Hrec & Hfile & Hwriter)|(Hrec & f & Hfile & Hwriter)];
        rewrite Hrec; simpl.
      * destruct open_ok; simpl; [right|left]; eauto.
      * left. by rewrite Hfile.
    + by destruct (recorder_step e st Hio Htog) as [-> _].
  - clear. by induction evs.
  - by left.
Qed.


End recorder.



(** C5.  When the file cannot be opened the start is given up: the flag
    is down again (the recorder is idle: no file, no writer), the failure
    is printed, the file system is as it was, and as long as the operator does not click the record button again no
    later tick or callback opens or writes a file, turns the flag on or
    takes another run number. *)
Theorem failed_start_aborts `{PyLib} (now : Clock) (st : State) (evs : list event) :
  is_recording (recorder st) = false ->
  no_toggle evs = true ->
  let st1 := func_record_toggle now false st in
  is_recording (recorder st1) = false
  /\ console (world st1) = console (world st) ++ [MsgCreateFailed]
  /\ files (world st1) = files (world st)
  /\ csv_file (recorder st1) = csv_file (recorder st)
  /\ csv_writer (recorder st1) = csv_writer (recorder st)
  /\ (reachable st -> idle (recorder st1))
  /\ files (world (run evs st1)) = files (world st)
  /\ is_recording (recorder (run evs st1)) = false
  /\ current_run_id (recorder (run evs st1)) = current_run_id (recorder st1).
Proof.
  intros Hidle Hev st1.
  assert (Hst1 : st1 = {| recorder := {| is_recording := false;
                                         current_run_id := S (current_run_id (recorder st));
                                         csv_file := csv_file (recorder st);
                                         csv_writer := csv_writer (recorder st);
                                         current_filename :=
                                           run_filename (S (current_run_id (recorder st)))
                                                        (now_HMS_compact now);
                                         last_save_time_str :=
                                           last_save_time_str (recorder st) |};
                          view := view st;
                          world := print MsgCreateFailed (world st);
                          widgets := widgets st |}).
  { unfold st1, func_record_toggle. by rewrite Hidle. }
  destruct (recorder_run_not_recording evs st1) as [Hrec Hfiles]; [by rewrite Hst1|done|].
  rewrite Hrec, Hfiles, Hst1. split_and!; try done.
  intros Hreach. unfold idle. simpl.
  destruct (idle_or_active_reachable st Hreach) as [(_ & -> & ->)|[Hact _]]; [done|].
  congruence.
Qed.

Lemma failed_start_aborts_witness :
  let st1 := func_record_toggle Example.clock0 false (init ∅) in
  let st2 := @run Example.lib
               [EvSerial ["1.5"; "2.25"]%string; EvUpdate (fun _ => Example.clock1)] st1 in
  is_recording (recorder st1) = false
  /\ console (world st1) = [MsgCreateFailed]
  /\ files (world st2) = ∅
  /\ is_recording (recorder st2) = false.
Proof.
  destruct (@failed_start_aborts Example.lib Example.clock0 (init ∅)
              [EvSerial ["1.5"; "2.25"]%string; EvUpdate (fun _ => Example.clock1)]
              eq_refl eq_refl)
    as (H1 & H2 & _ & _ & _ & _ & H3 & H4 & _).
  exact (conj H1 (conj H2 (conj H3 H4))).
Defined.

(** C6, as the specification spells the header.  The first session on an
    empty file system creates [Run_01_143000.csv]; its only row is not the
    row [Timestamp, ElapsedSeconds, Voltage, EventNote]. *)
Lemma start_header_not_spec_names :
  files (world (func_record_toggle Example.clock0 true (init ∅)))
    !! "Run_01_143000.csv"%string
  <> Some [spec_header_row].
Proof. vm_compute. discriminate. Qed.

(** C6, amended.  The start transition (the file opens) leaves in the new
    file exactly one row, the four-field header whose fields are
    [Timestamp], [Time_Sec], [Voltage], [Event_Note]. *)
Theorem start_writes_header (now : Clock) (st : State) :
  is_recording (recorder st) = false ->
  let st1 := func_record_toggle now true st in
  files (world st1) !! current_filename (recorder st1)
  = Some [[CStr "Timestamp"; CStr "Time_Sec"; CStr "Voltage"; CStr "Event_Note"]]
  /\ current_filename (recorder st1)
     = run_filename (S (current_run_id (recorder st))) (now_HMS_compact now)
  /\ current_run_id (recorder st1) = S (current_run_id (recorder st)).
Proof.
  intros Hidle. unfold func_record_toggle. rewrite Hidle. simpl.
  by rewrite lookup_insert_eq.
Qed.

Lemma start_writes_header_witness :
  files (world (func_record_toggle Example.clock0 true (init ∅)))
    !! "Run_01_143000.csv"%string
  = Some [[CStr "Timestamp"; CStr "Time_Sec"; CStr "Voltage"; CStr "Event_Note"]].
Proof. exact (proj1 (start_writes_header Example.clock0 (init ∅) eq_refl)). Defined.

(** C9, as the specification has it (the failed name is displayed).  A
    session is recorded and stopped, then a start fails, then a tick runs:
    [current_filename] holds the name of the file that could not be
    created, while the title still names the file of the finished session
    and the status panel shows the run number and the stem of the next
    name; no widget shows the failed name. *)
Lemma failed_start_name_not_displayed :
  let st := @run Example.lib
              [EvRecord Example.clock0 true; EvRecord Example.clock0 true;
               EvRecord Example.clock1 false; EvUpdate (fun _ => Example.clock1)]
              (init ∅) in
  current_filename (recorder st) = "Run_02_143100.csv"%string
  /\ title (widgets st) = "Plant Monitor - Paused (Last: Run_01_143000.csv)"%string
  /\ btn_record_label (widgets st) = "Start New REC"%string
  /\ text_left (widgets st) = Some (StatusPaused 2 "Run_03..." "---").
Proof. vm_compute. repeat split. Qed.

(** C9, amended.  A start that fails on [open] has already taken the next
    run number and stored the name of the file it could not create in the
    variable [current_filename]; the handler only puts the flag down
    again, and no widget is touched (the title and the button stay as they
    were).  The status panel of the next tick shows the new run number and
    the stem of the name after it, nothing up to the next click on the
    record button takes the number back, and the next session that starts
    gets the number after it. *)
Theorem failed_start_consumes_run_id `{PyLib} (now now' : Clock) (clk : nat -> Clock)
    (st : State) (evs : list event) :
  is_recording (recorder st) = false ->
  no_toggle evs = true ->
  let n := current_run_id (recorder st) in
  let st1 := func_record_toggle now false st in
  let st2 := func_record_toggle now' true (run evs st1) in
  recorder st1
  = {| is_recording := false;
       current_run_id := S n;
       csv_file := csv_file (recorder st);
       csv_writer := csv_writer (recorder st);
       current_filename := run_filename (S n) (now_HMS_compact now);
       last_save_time_str := last_save_time_str (recorder st) |}
  /\ widgets st1 = widgets st
  /\ text_left (widgets (update clk st1))
     = Some (StatusPaused (S n) ("Run_" +:+ fmt_02d (S n + 1) +:+ "...")
                          (last_save_time_str (recorder st)))
  /\ title (widgets (update clk st1)) = title (widgets st)
  /\ btn_record_label (widgets (update clk st1)) = btn_record_label (widgets st)
  /\ recorder (run evs st1) = recorder st1
  /\ is_recording (recorder st2) = true
  /\ current_run_id (recorder st2) = S (S n)
  /\ current_filename (recorder st2) = run_filename (S (S n)) (now_HMS_compact now').
Proof.
  intros Hidle Hev n st1 st2.
  assert (Hrec1 : recorder st1
                  = {| is_recording := false;
                       current_run_id := S n;
                       csv_file := csv_file (recorder st);
                       csv_writer := csv_writer (recorder st);
                       current_filename := run_filename (S n) (now_HMS_compact now);
                       last_save_time_str := last_save_time_str (recorder st) |}).
  { unfold st1, func_record_toggle. by rewrite Hidle. }
  assert (Hwid1 : widgets st1 = widgets st).
  { unfold st1, func_record_toggle. by rewrite Hidle. }
  assert (Hidle1 : is_recording (recorder st1) = false) by by rewrite Hrec1.
  destruct (recorder_run_not_recording evs st1 Hidle1 Hev) as [Hrun _].
  destruct (recorder_run_not_recording [EvUpdate clk] st1 Hidle1 eq_refl) as [Htick _].
  change (run [EvUpdate clk] st1) with (update clk st1) in Htick.
  destruct (session_fields_update clk st1) as (_ & _ & _ & _ & _ & Hbtn & Htitle).
  split_and!; try done.
  - change (text_left (widgets (update clk st1)))
      with (Some (status (recorder (update clk st1)))).
    rewrite Htick, Hrec1. done.
  - by rewrite Htitle, Hwid1.
  - by rewrite Hbtn, Hwid1.
  - unfold st2, func_record_toggle. by rewrite Hrun, Hidle1.
  - unfold st2, func_record_toggle. by rewrite Hrun, Hidle1, Hrec1.
  - unfold st2, func_record_toggle. by rewrite Hrun, Hidle1, Hrec1.
Qed.

(** The first start fails: run 1 is used up, the title and the button are
    those of start-up, and the session that then starts is run 2. *)
Lemma failed_start_consumes_run_id_witness :
  let st1 := func_record_toggle Example.clock0 false (init ∅) in
  let st2 := func_record_toggle Example.clock1 true st1 in
  current_run_id (recorder st1) = 1
  /\ current_filename (recorder st1) = "Run_01_143000.csv"%string
  /\ is_recording (recorder st1) = false
  /\ title (widgets st1) = "Plant Monitor - Ready"%string
  /\ current_run_id (recorder st2) = 2
  /\ current_filename (recorder st2) = "Run_02_143100.csv"%string.
Proof.
  destruct (@failed_start_consumes_run_id Example.lib Example.clock0 Example.clock1
              (fun _ => Example.clock1) (init ∅) [] eq_refl eq_refl)
    as (H1 & Hwid & _ & _ & _ & _ & _ & H2 & H3).
  exact (conj (f_equal current_run_id H1)
          (conj (f_equal current_filename H1)
            (conj (f_equal is_recording H1)
              (conj (f_equal title Hwid) (conj H2 H3))))).
Defined.

(** C8.  The reset empties the list of markers and refills the buffer
    with [MAX_POINTS] copies of the last valid voltage; the recorder (flag,
    run counter, file, writer, file name), the files and the waiting lines
    are as before, so an open session goes on: the next sample is written
    to the same file as it would have been without the reset. *)
Theorem reset_view `{PyLib} (st : State) (now : Clock) (v : float) :
  reachable st ->
  active_markers (view (func_clear st)) = []
  /\ snapshot (func_clear st) = replicate MAX_POINTS (last_valid_voltage (view st))
  /\ length (snapshot (func_clear st)) = MAX_POINTS
  /\ recorder (func_clear st) = recorder st
  /\ files (world (func_clear st)) = files (world st)
  /\ ser_in (world (func_clear st)) = ser_in (world st)
  /\ pending_event (view (func_clear st)) = pending_event (view st)
  /\ recorder (on_sample now v (func_clear st)) = recorder (on_sample now v st)
  /\ files (world (on_sample now v (func_clear st)))
     = files (world (on_sample now v st)).
Proof.
  intros Hreach. destruct (full_reachable st Hreach) as [Hmax Hlen].
  split_and!; try done.
  - by apply snapshot_clear.
  - rewrite snapshot_clear by done. by rewrite length_replicate.
  - unfold on_sample, take_event, save_row. simpl.
    destruct (pending_event (view st)); simpl;
      by destruct (is_recording (recorder st)), (csv_writer (recorder st)).
  - unfold on_sample, take_event, save_row. simpl.
    destruct (pending_event (view st)); simpl;
      by destruct (is_recording (recorder st)), (csv_writer (recorder st)).
Qed.

(** A reset in the middle of the first session, after one sample and one
    tagged event. *)
Lemma reset_view_witness :
  let st := @run Example.lib
              [EvRecord Example.clock0 true; EvSerial ["1.5"]%string;
               EvPreset "Touch"; EvUpdate (fun _ => Example.clock1)] (init ∅) in
  active_markers (view st) = [{| t_lbl := "Touch"; cur_x := 299 |}]
  /\ active_markers (view (func_clear st)) = []
  /\ snapshot (func_clear st) = replicate MAX_POINTS 1.5%float
  /\ is_recording (recorder (func_clear st)) = true
  /\ csv_file (recorder (func_clear st)) = Some "Run_01_143000.csv"%string.
Proof.
  intros st.
  destruct (@reset_view Example.lib st Example.clock1 2.5%float)
    as (H1 & H2 & _ & H3 & _).
  { exists ∅. eexists. reflexivity. }
  refine (conj _ (conj H1 (conj H2
            (conj (f_equal is_recording H3) (f_equal csv_file H3))))).
  vm_compute. reflexivity.
Defined.

(** ** The pending event *)

(** C4.  The register holds one label.  A preset click or a custom note
    overwrites whatever label is waiting, so after two clicks only the
    second label is there; the next accepted sample takes it (it becomes
    the note of that sample's row and the label of a new marker) and
    clears the register, and the sample after that finds nothing: its
    note is the empty string. *)
Theorem pending_event_register (l1 l2 : string) (now now' : Clock) (v v' : float)
    (f : string) (st : State) :
  let st1 := make_callback l2 (make_callback l1 st) in
  let st2 := on_sample now v st1 in
  let st3 := on_sample now' v' st2 in
  pending_event (view st1) = Some l2
  /\ (take_event (view st1)).1 = l2
  /\ pending_event (take_event (view st1)).2 = None
  /\ (take_event (take_event (view st1)).2).1 = ""%string
  /\ pending_event (view st2) = None
  /\ pending_event (view st3) = None
  /\ (l2 <> ""%string ->
      pending_event (view (func_custom_record l2 (make_callback l1 st))) = Some l2)
  /\ (is_recording (recorder st) = true -> csv_writer (recorder st) = Some f ->
      files (world st3) !! f
      = Some (default [] (files (world st) !! f)
              ++ [data_row now v l2; data_row now' v' ""])).
Proof.
  intros st1 st2 st3.
  assert (Hv2 : view st2
                = {| data_buffer := Deque.append (data_buffer (view st)) v;
                     active_markers :=
                       move_markers (active_markers (view st))
                       ++ [{| t_lbl := l2; cur_x := (Z.of_nat MAX_POINTS - 1)%Z |}];
                     is_auto_scale := is_auto_scale (view st);
                     last_valid_voltage := v;
                     pending_event := None |}).
  { unfold st2, st1, on_sample, take_event, save_row. simpl.
    by destruct (is_recording (recorder st)), (csv_writer (recorder st)). }
  split_and!; try done.
  - by rewrite Hv2.
  - unfold st3. rewrite on_sample_view, Hv2. done.
  - intros Hne. unfold func_custom_record. by case_decide.
  - intros Hrec Hwriter.
    unfold st3, on_sample at 1. rewrite Hv2. unfold take_event. simpl.
    unfold save_row at 1.
    assert (Hrec2 : recorder st2
                    = {| is_recording := true;
                         current_run_id := current_run_id (recorder st);
                         csv_file := csv_file (recorder st);
                         csv_writer := Some f;
                         current_filename := current_filename (recorder st);
                         last_save_time_str := now_HMS now |}
                      /\ files (world st2)
                         = <[f := default [] (files (world st) !! f)
                                  ++ [data_row now v l2]]> (files (world st))).
    { unfold st2, st1, on_sample, take_event, save_row. simpl.
      by rewrite Hrec, Hwriter. }
    destruct Hrec2 as [Hrec2 Hfiles2]. simpl. rewrite Hrec2. simpl.
    rewrite Hfiles2, !lookup_insert_eq. simpl. by rewrite <- (assoc_L (++)).
Qed.

(** ** The trend *)

Section trend.
Open Scope float_scope.

Lemma threshold_spec :
  Prim2SF NOISE_THRESHOLD = S754_finite false 4611686018427388 (-61).
Proof. reflexivity. Qed.

Lemma neg_threshold_spec :
  Prim2SF (- NOISE_THRESHOLD) = S754_finite true 4611686018427388 (-61).
Proof. reflexivity. Qed.

(** A difference above the threshold is not below its negation, and the
    other way round: the threshold is a positive finite number. *)
Lemma up_not_down d :
  (NOISE_THRESHOLD <? d) = true -> (d <? - NOISE_THRESHOLD) = false.
Proof.
  rewrite !ltb_spec, threshold_spec, neg_threshold_spec.
  destruct (Prim2SF d) as [s|s| |s m e]; try destruct s;
    try discriminate; reflexivity.
Qed.

Lemma down_not_up d :
  (d <? - NOISE_THRESHOLD) = true -> (NOISE_THRESHOLD <? d) = false.
Proof.
  rewrite !ltb_spec, threshold_spec, neg_threshold_spec.
  destruct (Prim2SF d) as [s|s| |s m e]; try destruct s;
    try discriminate; reflexivity.
Qed.

(** [x - x] is a zero, or not a number when [x] is infinite or not a
    number. *)
Lemma sub_diag_spec x :
  SF64sub x x = S754_nan \/ exists s, SF64sub x x = S754_zero s.
Proof.
  destruct x as [s|s| |s m e]; simpl.
  - right. destruct s; eauto.
  - left. by destruct s.
  - by left.
  - right. unfold SF64sub, SFsub. rewrite Z.min_id, Z.sub_diag. simpl. eauto.
Qed.

Lemma flat_step c :
  (NOISE_THRESHOLD <? c - c) = false /\ (c - c <? - NOISE_THRESHOLD) = false.
Proof.
  rewrite !ltb_spec, sub_spec, threshold_spec, neg_threshold_spec.
  by destruct (sub_diag_spec (Prim2SF c)) as [-> | [s ->]].
Qed.

Lemma np_diff_first_differences w : np_diff w = first_differences w.
Proof.
  unfold first_differences. induction w as [|x [|y w] IH]; [done..|].
  change (np_diff (x :: y :: w)) with ((y - x) :: np_diff (y :: w)).
  rewrite IH. done.
Qed.

Lemma first_differences_length w : length (first_differences w) = (length w - 1)%nat.
Proof.
  unfold first_differences. rewrite length_zip_with, length_drop. lia.
Qed.

Lemma np_sum_filter (P : float -> bool) l :
  np_sum (P <$> l) = length (filter (fun d => P d = true) l).
Proof.
  induction l as [|d l IH]; [done|].
  rewrite fmap_cons, filter_cons. simpl. rewrite IH.
  destruct (P d) eqn:HP; by case_decide.
Qed.

Lemma filter_all (P : float -> bool) l :
  Forall (fun d => P d = true) l ->
  length (filter (fun d => P d = true) l) = length l.
Proof.
  induction 1 as [|d l Hd Hl IH]; [done|].
  rewrite filter_cons. case_decide; [|done]. simpl. by rewrite IH.
Qed.

Lemma filter_none (P : float -> bool) l :
  Forall (fun d => P d = false) l ->
  length (filter (fun d => P d = true) l) = 0%nat.
Proof.
  induction 1 as [|d l Hd Hl IH]; [done|].
  rewrite filter_cons. case_decide; [congruence|done].
Qed.

(** The code and the wording of the specification agree. *)
Lemma classify_trend_spec y_data : classify y_data = trend_spec y_data.
Proof.
  unfold classify, trend_spec, steps_up, steps_down.
  rewrite np_diff_first_differences, !np_sum_filter.
  repeat case_decide; try done; lia.
Qed.

Lemma classify_not_wait y_data : (50 <= length y_data)%nat -> classify y_data <> Wait.
Proof. intros Hlen. unfold classify. by repeat case_decide. Qed.

Lemma window_differences y_data :
  (50 <= length y_data)%nat ->
  length (first_differences (Deque.lastn 50 y_data)) = 49%nat.
Proof.
  intros Hlen. rewrite first_differences_length, DequeFacts.lastn_length. lia.
Qed.

Lemma first_differences_replicate n c :
  Forall (fun d => d = c - c) (first_differences (replicate n c)).
Proof.
  unfold first_differences. induction n as [|[|n] IH]; [done..|].
  simpl in *. rewrite drop_0 in IH. by constructor.
Qed.

Lemma first_differences_lookup w i a b :
  w !! i = Some a -> w !! S i = Some b ->
  first_differences w !! i = Some (b - a).
Proof.
  intros Ha Hb. unfold first_differences.
  apply lookup_zip_with_Some. exists a, b. split_and!; [done..|].
  by rewrite lookup_drop.
Qed.

(** A property of every step of a window, stated on the samples or on
    the list of its first differences. *)
Lemma Forall_steps (P : float -> Prop) w :
  (forall i a b, w !! i = Some a -> w !! S i = Some b -> P (b - a))
  <-> Forall P (first_differences w).
Proof.
  rewrite Forall_lookup. split.
  - intros Hsteps i d Hd. unfold first_differences in Hd.
    apply lookup_zip_with_Some in Hd as (a & b & -> & Ha & Hb).
    rewrite lookup_drop in Hb. by eapply Hsteps.
  - intros Hdiffs i a b Ha Hb. apply (Hdiffs i).
    by apply first_differences_lookup.
Qed.

(** Only the newest 50 samples count. *)
Lemma classify_newest older w :
  length w = 50%nat ->
  classify (older ++ w)
  = let diffs := first_differences w in
    if decide (steps_down diffs + 5 < steps_up diffs)%nat then Rising
    else if decide (steps_up diffs + 5 < steps_down diffs)%nat then Falling
    else Stable.
Proof.
  intros Hlen. rewrite classify_trend_spec. unfold trend_spec.
  rewrite length_app, DequeFacts.lastn_app_r, DequeFacts.lastn_all by lia.
  case_decide; [lia|done].
Qed.

End trend.

(** C3.  The trend of a buffer is [Wait] below 50 samples.  Otherwise
    only the newest 50 samples count, whatever precedes them: with their
    first differences (each sample minus the one before it) above the
    threshold counted as up and those below its negation as down, the
    trend is [Rising] when up exceeds down by more than 5, [Falling] in
    the reverse case and [Stable] otherwise.  In particular, when every
    step of the newest 50 samples (the difference as the program computes
    it) exceeds the threshold the trend is [Rising], when every step is
    below its negation it is [Falling], and when the newest 50 samples
    are one and the same value it is [Stable]. *)
Theorem trend_classification (short older w : list float) (c : float) :
  (length short < 50 -> classify short = Wait)
  /\ (length w = 50 ->
      classify (older ++ w)
      = let diffs := first_differences w in
        if decide (steps_down diffs + 5 < steps_up diffs) then Rising
        else if decide (steps_up diffs + 5 < steps_down diffs) then Falling
        else Stable)
  /\ (length w = 50 ->
      (forall i a b, w !! i = Some a -> w !! S i = Some b ->
                     (NOISE_THRESHOLD <? b - a)%float = true) ->
      classify (older ++ w) = Rising)
  /\ (length w = 50 ->
      (forall i a b, w !! i = Some a -> w !! S i = Some b ->
                     (b - a <? - NOISE_THRESHOLD)%float = true) ->
      classify (older ++ w) = Falling)
  /\ classify (older ++ replicate 50 c) = Stable.
Proof.
  split_and!.
  - intros Hlen. unfold classify. case_decide; [lia|done].
  - apply classify_newest.
  - intros Hlen Hup. rewrite classify_newest by done.
    apply (Forall_steps (fun d => (NOISE_THRESHOLD <? d)%float = true)) in Hup.
    unfold steps_up, steps_down. cbv zeta.
    rewrite (filter_all (fun d => NOISE_THRESHOLD <? d)%float) by done.
    rewrite (filter_none (fun d => d <? - NOISE_THRESHOLD)%float).
    + rewrite first_differences_length, Hlen. repeat case_decide; try done; lia.
    + eapply Forall_impl; [exact Hup|]. apply up_not_down.
  - intros Hlen Hdown. rewrite classify_newest by done.
    apply (Forall_steps (fun d => (d <? - NOISE_THRESHOLD)%float = true)) in Hdown.
    unfold steps_up, steps_down. cbv zeta.
    rewrite (filter_all (fun d => d <? - NOISE_THRESHOLD)%float) by done.
    rewrite (filter_none (fun d => NOISE_THRESHOLD <? d)%float).
    + rewrite first_differences_length, Hlen. repeat case_decide; try done; lia.
    + eapply Forall_impl; [exact Hdown|]. apply down_not_up.
  - rewrite classify_newest by apply length_replicate.
    pose proof (first_differences_replicate 50 c) as Hflat.
    unfold steps_up, steps_down. cbv zeta.
    rewrite (filter_none (fun d => NOISE_THRESHOLD <? d)%float).
    + rewrite (filter_none (fun d => d <? - NOISE_THRESHOLD)%float).
      * repeat case_decide; try done; lia.
      * eapply Forall_impl; [exact Hflat|]. intros d ->. apply flat_step.
    + eapply Forall_impl; [exact Hflat|]. intros d ->. apply flat_step.
Qed.

(** Buffers of 100 samples: a climb of 10 mV a step after a flat stretch
    is [Rising], a fall after a climb [Falling], a flat stretch after a
    climb [Stable]; 49 samples give [Wait]. *)
Lemma trend_classification_witness :
  classify (replicate 50 1.5%float ++ Example.ramp_up) = Rising
  /\ classify (Example.ramp_up ++ Example.ramp_down) = Falling
  /\ classify (Example.ramp_up ++ replicate 50 1.5%float) = Stable
  /\ classify (replicate 49 1.5%float) = Wait.
Proof.
  destruct (trend_classification [] (replicate 50 1.5%float) Example.ramp_up 0%float)
    as (_ & _ & Hup & _ & _).
  destruct (trend_classification [] Example.ramp_up Example.ramp_down 0%float)
    as (_ & _ & _ & Hdown & _).
  destruct (trend_classification [] Example.ramp_up [] 1.5%float)
    as (_ & _ & _ & _ & Hflat).
  destruct (trend_classification (replicate 49 1.5%float) [] [] 0%float)
    as (Hwait & _).
  split_and!.
  - apply Hup; [reflexivity|].
    apply (Forall_steps (fun d => (NOISE_THRESHOLD <? d)%float = true)).
    apply (bool_decide_unpack _). vm_compute. exact I.
  - apply Hdown; [reflexivity|].
    apply (Forall_steps (fun d => (d <? - NOISE_THRESHOLD)%float = true)).
    apply (bool_decide_unpack _). vm_compute. exact I.
  - exact Hflat.
  - apply Hwait. apply (bool_decide_unpack _). vm_compute. exact I.
Defined.

(** ** What the panel shows *)

Section presentation.
Context `{PyLib}.

Lemma run_snoc evs e st : run (evs ++ [e]) st = step e (run evs st).
Proof. unfold run. by rewrite foldl_app. Qed.

(** Only a tick writes the right-hand panel. *)
Lemma text_right_step e st :
  (forall clk, e <> EvUpdate clk) ->
  text_right (widgets (step e st)) = text_right (widgets st).
Proof.
  destruct e; intros Hne; simpl; try done.
  - unfold func_record_toggle.
    destruct (is_recording (recorder st)); simpl; [done|]. by destruct open_ok.
  - unfold func_custom_record. by case_decide.
  - by destruct (Hne clk).
Qed.

(** A tick shows the statistics of the buffer it leaves. *)
Lemma text_right_update clk st :
  text_right (widgets (update clk st)) = Some (statistics (view (update clk st))).
Proof. done. Qed.

Lemma trend_reachable st s :
  reachable st -> text_right (widgets st) = Some s -> trend_str s <> Wait.
Proof.
  intros (fs & evs & ->). revert s.
  induction evs as [|e evs IH] using rev_ind; intros s Hs; [done|].
  rewrite run_snoc in Hs.
  assert (Hcase : (exists clk, e = EvUpdate clk) \/ (forall clk, e <> EvUpdate clk)).
  { destruct e; try (by right); left; eauto. }
  destruct Hcase as [[clk ->]|Hne].
  - unfold step in Hs. rewrite text_right_update in Hs. injection Hs as <-.
    assert (Hfull : full (update clk (run evs (init fs)))).
    { apply (full_run [EvUpdate clk]), full_run, full_init. }
    destruct Hfull as [_ Hlen].
    change (classify (snapshot (update clk (run evs (init fs)))) <> Wait).
    apply classify_not_wait. rewrite Hlen. apply MAX_POINTS_window.
  - rewrite text_right_step in Hs by done. by apply IH.
Qed.

End presentation.

(** C10, as the specification has it (zeros stay until [MAX_POINTS]
    samples have arrived).  One sample is accepted, the view is reset, a
    tick runs: the buffer holds [MAX_POINTS] copies of the sample and no
    zero, and the panel shows a minimum and a mean of 1.5, though one
    sample only has arrived. *)
Lemma reset_replaces_fillers :
  let evs := [EvSerial ["1.5"]%string; EvUpdate (fun _ => Example.clock0);
              EvClear; EvUpdate (fun _ => Example.clock0)] in
  let st := @run Example.lib evs (init ∅) in
  @accepted Example.lib [] evs = [1.5%float]
  /\ snapshot st = replicate 300 1.5%float
  /\ snapshot st <> replicate 299 0%float ++ [1.5%float]
  /\ (min_val <$> text_right (widgets st)) = Some 1.5%float
  /\ (avg_val <$> text_right (widgets st)) = Some 1.5%float.
Proof. vm_compute. split_and!; try reflexivity. discriminate. Qed.

(** C10, amended.  The buffer is built full: [MAX_POINTS] fillers of value
    0.0.  In every state the program reaches its snapshot has [MAX_POINTS]
    items, and whenever the right-hand panel shows statistics their trend
    is not [Wait].  In a run from start-up without a reset of the view, as
    long as no more than [MAX_POINTS] samples have been accepted, a tick
    computes maximum, minimum, mean and trend over the remaining filler
    zeros followed by the accepted samples. *)
Theorem startup_fillers `{PyLib} (fs : gmap string (list row)) (evs : list event)
    (clk : nat -> Clock) :
  snapshot (init fs) = replicate MAX_POINTS 0%float
  /\ (forall st, reachable st -> length (snapshot st) = MAX_POINTS)
  /\ (forall st s, reachable st -> text_right (widgets st) = Some s ->
      trend_str s <> Wait)
  /\ (no_clear evs = true ->
      let st := run (evs ++ [EvUpdate clk]) (init fs) in
      let vs := accepted [] (evs ++ [EvUpdate clk]) in
      length vs <= MAX_POINTS ->
      let y_data := replicate (MAX_POINTS - length vs) 0%float ++ vs in
      snapshot st = y_data
      /\ exists s, text_right (widgets st) = Some s
                   /\ max_val s = np_max y_data
                   /\ min_val s = np_min y_data
                   /\ avg_val s = np_mean y_data
                   /\ amp_val s = (np_max y_data - np_min y_data)%float
                   /\ trend_str s = classify y_data).
Proof.
  split_and!.
  - apply snapshot_init.
  - intros st Hreach. by destruct (full_reachable st Hreach).
  - intros st s. apply trend_reachable.
  - intros Hev st vs Hlen y_data.
    assert (Hsnap : snapshot st = y_data).
    { unfold st. rewrite snapshot_run.
      - change (accepted (ser_in (world (init fs))) (evs ++ [EvUpdate clk])) with vs.
        rewrite snapshot_init, DequeFacts.lastn_app_l by done.
        unfold y_data, Deque.lastn. rewrite drop_replicate, length_replicate.
        do 2 f_equal. lia.
      - apply full_init.
      - unfold no_clear in *. rewrite forallb_app, Hev. done. }
    split; [done|].
    exists (statistics (view st)). split.
    + unfold st. rewrite run_snoc. apply text_right_update.
    + unfold statistics. fold (snapshot st). rewrite Hsnap. done.
Qed.

(** Two samples after start-up: the panel shows a minimum of 0 and a mean
    of 12.5 mV, both due to the 298 fillers still in the buffer. *)
Lemma startup_fillers_witness :
  let st := @run Example.lib
              [EvSerial ["1.5"; "2.25"]%string; EvUpdate (fun _ => Example.clock0)]
              (init ∅) in
  snapshot st = replicate 298 0%float ++ [1.5; 2.25]%float
  /\ (min_val <$> text_right (widgets st)) = Some 0%float
  /\ (max_val <$> text_right (widgets st)) = Some 2.25%float
  /\ (avg_val <$> text_right (widgets st)) = Some 0x1.999999999999ap-7%float
  /\ (trend_str <$> text_right (widgets st)) = Some Stable.
Proof.
  intros st.
  destruct (@startup_fillers Example.lib ∅ [EvSerial ["1.5"; "2.25"]%string]
              (fun _ => Example.clock0)) as (_ & _ & _ & Hstats).
  destruct (Hstats eq_refl) as (Hsnap & s & Hs & Hmax & Hmin & Havg & _ & Htrend).
  { apply (bool_decide_unpack _). vm_compute. exact I. }
  assert (Hs' : text_right (widgets st) = Some s) by exact Hs.
  rewrite Hs'. simpl. rewrite Hmin, Hmax, Havg, Htrend.
  split; [exact Hsnap|]. vm_compute. repeat split.
Defined.

(** ** Runs on concrete inputs *)

(** Two markers die on the same sample; the indices 0 and 2 are popped
    from the back. *)
Example move_markers_two_dead :
  age_markers 0 [{| t_lbl := "a"; cur_x := 0 |}; {| t_lbl := "b"; cur_x := 5 |};
                 {| t_lbl := "c"; cur_x := 0 |}]
  = ([{| t_lbl := "a"; cur_x := -1 |}; {| t_lbl := "b"; cur_x := 4 |};
      {| t_lbl := "c"; cur_x := -1 |}], [0; 2])
  /\ move_markers [{| t_lbl := "a"; cur_x := 0 |}; {| t_lbl := "b"; cur_x := 5 |};
                   {| t_lbl := "c"; cur_x := 0 |}]
     = [{| t_lbl := "b"; cur_x := 4 |}].
Proof. split; reflexivity. Qed.

(** A tick reads ten lines and leaves the others waiting. *)
Example update_reads_ten_lines :
  let st := @run Example.lib
              [EvSerial (replicate 12 "1.5"%string); EvUpdate (fun _ => Example.clock0)]
              (init ∅) in
  ser_in (world st) = ["1.5"; "1.5"]%string
  /\ Deque.lastn 11 (snapshot st) = 0%float :: replicate 10 1.5%float.
Proof. vm_compute. split; reflexivity. Qed.

(** Two labels set before one sample: the row carries the second, the
    next row carries the empty note. *)
Example second_label_recorded :
  files (world (@run Example.lib
                  [EvRecord Example.clock0 true; EvPreset "Touch"; EvCustom "Mark";
                   EvSerial ["1.5"; "2.25"]%string;
                   EvUpdate (fun _ => Example.clock1)] (init ∅)))
    !! "Run_01_143000.csv"%string
  = Some [header_row;
          [CStr "14:31:00.000"; CStr "72.500"; CFloat 1.5; CStr "Mark"];
          [CStr "14:31:00.000"; CStr "72.500"; CFloat 2.25; CStr ""]].
Proof. vm_compute. reflexivity. Qed.

(** A marker set with the first sample is gone 300 samples later. *)
Example marker_lifetime :
  let tick := EvUpdate (fun _ => Example.clock0) in
  let ticks n := mjoin (replicate n [EvSerial (replicate 10 "1.5"%string); tick]) in
  active_markers (view (@run Example.lib (EvPreset "Touch" :: ticks 30) (init ∅)))
  = [{| t_lbl := "Touch"; cur_x := 0 |}]
  /\ active_markers (view (@run Example.lib
                             (EvPreset "Touch" :: ticks 30
                              ++ [EvSerial ["1.5"%string]; tick]) (init ∅)))
     = [].
Proof. vm_compute. split; reflexivity. Qed.

(** ** Further properties of the tick *)

Section ticks.
Context `{PyLib}.

Lemma set_ser_in_id st : set_ser_in (ser_in (world st)) st = st.
Proof. by destruct st as [r v [q fs out] w]. Qed.

Lemma set_ser_in_twice q q' st : set_ser_in q (set_ser_in q' st) = set_ser_in q st.
Proof. done. Qed.

(** A loop that meets no line it can parse only takes lines away. *)
Lemma read_lines_rejected clk : forall loop_limit st,
  omap parse_line (take loop_limit (ser_in (world st))) = [] ->
  read_lines clk loop_limit st
  = set_ser_in (drop loop_limit (ser_in (world st))) st.
Proof.
  induction loop_limit as [|n IH]; intros st Hnone.
  - simpl. by rewrite drop_0, set_ser_in_id.
  - simpl. unfold readline.
    destruct (ser_in (world st)) as [|raw_line rest] eqn:Hq.
    + simpl. by rewrite <- Hq, set_ser_in_id.
    + simpl in Hnone. unfold on_line.
      destruct (parse_line raw_line) as [voltage|]; [done|].
      rewrite IH by done. done.
Qed.

Lemma update_rejected clk st :
  tick_samples (ser_in (world st)) = [] ->
  recorder (update clk st) = recorder st
  /\ view (update clk st) = view st
  /\ files (world (update clk st)) = files (world st)
  /\ console (world (update clk st))
     = console (world st)
       ++ (if is_auto_scale (view st)
              && set_ylim_raises (auto_ylim (statistics (view st)))
           then [MsgError] else [])
  /\ ser_in (world (update clk st)) = drop 10 (ser_in (world st)).
Proof.
  intros Hnone. unfold update. rewrite read_lines_rejected by done. done.
Qed.

Lemma ser_in_update clk st :
  ser_in (world (update clk st)) = drop 10 (ser_in (world st)).
Proof.
  pose proof (read_lines_inv (fun _ _ => True) clk) as Hinv.
  by destruct (Hinv (fun _ _ _ _ => I) (fun _ _ _ _ _ => I) 10 st [] I) as [_ Hq].
Qed.

Lemma ser_in_ticks clks : forall st,
  ser_in (world (run (EvUpdate <$> clks) st))
  = drop (10 * length clks) (ser_in (world st)).
Proof.
  induction clks as [|clk clks IH]; intros st.
  - simpl. by rewrite ?drop_0.
  - change (run (EvUpdate <$> clk :: clks) st)
      with (run (EvUpdate <$> clks) (update clk st)).
    rewrite IH, ser_in_update, drop_drop. f_equal. simpl. lia.
Qed.

Lemma accepted_ticks clks : forall q,
  accepted q (EvUpdate <$> clks) = omap parse_line (take (10 * length clks) q).
Proof.
  induction clks as [|clk clks IH]; intros q.
  - simpl. by rewrite ?take_0.
  - change (accepted q (EvUpdate <$> clk :: clks))
      with (tick_samples q ++ accepted (drop 10 q) (EvUpdate <$> clks)).
    rewrite IH. unfold tick_samples. rewrite <- omap_app. f_equal.
    replace (10 * length (clk :: clks)) with (10 + 10 * length clks) by (simpl; lia).
    rewrite <- (take_drop 10 q) at 3.
    destruct (decide (10 <= length q)) as [Hle|Hgt].
    + rewrite take_app_ge by (rewrite length_take; lia).
      rewrite length_take. by replace (10 + 10 * length clks - 10 `min` length q)
        with (10 * length clks) by lia.
    + rewrite (drop_ge q 10) by lia. rewrite take_nil, !app_nil_r.
      rewrite (take_ge q 10) by lia. by rewrite take_ge by lia.
Qed.

Lemma last_replicate {A} n (x : A) : 0 < n -> last (replicate n x) = Some x.
Proof.
  intros Hn. destruct n as [|n]; [lia|].
  by rewrite replicate_S_end, last_snoc.
Qed.

Lemma snapshot_on_sample now x st :
  full st -> snapshot (on_sample now x st) = drop 1 (snapshot st) ++ [x].
Proof.
  intros [Hmax Hlen]. unfold snapshot in *.
  rewrite data_buffer_on_sample, DequeFacts.items_append by lia.
  unfold Deque.lastn. rewrite length_app, drop_app, Hmax, Hlen. simpl.
  pose proof MAX_POINTS_pos.
  replace (MAX_POINTS + 1 - MAX_POINTS) with 1 by lia.
  by replace (1 - MAX_POINTS + (MAX_POINTS - MAX_POINTS)) with 0 by lia.
Qed.

Lemma full_on_sample now x st : full st -> full (on_sample now x st).
Proof.
  intros Hfull. split.
  - rewrite data_buffer_on_sample. by destruct Hfull.
  - rewrite snapshot_on_sample by done. destruct Hfull as [_ Hlen].
    pose proof MAX_POINTS_pos. rewrite length_app, length_drop. simpl. lia.
Qed.

Lemma last_valid_voltage_on_sample now v st :
  last_valid_voltage (view (on_sample now v st)) = v.
Proof.
  rewrite on_sample_view. unfold take_event. simpl.
  by destruct (pending_event (view st)).
Qed.

Lemma last_valid_voltage_step e st :
  is_io e = false ->
  last_valid_voltage (view (step e st)) = last_valid_voltage (view st).
Proof.
  destruct e; try done; intros _; simpl.
  - unfold func_record_toggle.
    destruct (is_recording (recorder st)); simpl; [done|]. by destruct open_ok.
  - unfold func_custom_record. by case_decide.
Qed.

Lemma classify_constant n c : 50 <= n -> classify (replicate n c) = Stable.
Proof.
  intros Hn. rewrite classify_trend_spec. unfold trend_spec, steps_up, steps_down.
  assert (Hwin : Deque.lastn 50 (replicate n c) = replicate 50 c).
  { unfold Deque.lastn. rewrite drop_replicate, length_replicate. f_equal. lia. }
  rewrite Hwin, length_replicate.
  pose proof (first_differences_replicate 50 c) as Hflat.
  rewrite (filter_none (fun d => NOISE_THRESHOLD <? d)%float),
          (filter_none (fun d => d <? - NOISE_THRESHOLD)%float).
  - repeat case_decide; try done; lia.
  - eapply Forall_impl; [exact Hflat|]. intros d ->. apply flat_step.
  - eapply Forall_impl; [exact Hflat|]. intros d ->. apply flat_step.
Qed.

Lemma classify_window y_data :
  50 <= length y_data -> classify (Deque.lastn 50 y_data) = classify y_data.
Proof.
  intros Hlen. unfold classify.
  rewrite DequeFacts.lastn_lastn, DequeFacts.lastn_length.
  by repeat case_decide; try lia.
Qed.

End ticks.

(** X1.  The cap of ten lines a tick delays samples but neither drops nor
    reorders them: after any number of ticks with no other event in
    between, the lines consumed are the first ten per tick of the waiting
    ones, the others still wait in order, and the buffer is the window
    over its earlier content followed by the samples parsed from the
    consumed lines, in the order of the lines. *)
Theorem ticks_drain_in_order `{PyLib} (clks : list (nat -> Clock)) (st : State) :
  full st ->
  let q := ser_in (world st) in
  let st' := run (EvUpdate <$> clks) st in
  ser_in (world st') = drop (10 * length clks) q
  /\ snapshot st'
     = Deque.lastn MAX_POINTS
         (snapshot st ++ omap parse_line (take (10 * length clks) q)).
Proof.
  intros Hfull q st'. split; [apply ser_in_ticks|].
  unfold st'. rewrite snapshot_run, accepted_ticks; [done..|].
  unfold no_clear. clear. by induction clks.
Qed.

(** Twelve lines wait, one of them garbage: the first tick takes ten, the
    second the other two. *)
Lemma ticks_drain_in_order_witness :
  let st := @run Example.lib
              [EvSerial (["1.5"; "x"]%string ++ replicate 10 "2.5"%string)] (init ∅) in
  let st' := @run Example.lib
               (EvUpdate <$> [fun _ => Example.clock0; fun _ => Example.clock1]) st in
  ser_in (world st') = []
  /\ Deque.lastn 12 (snapshot st') = 0%float :: 1.5%float :: replicate 10 2.5%float.
Proof.
  intros st st'.
  destruct (@ticks_drain_in_order Example.lib
              [fun _ => Example.clock0; fun _ => Example.clock1] st) as [Hq Hsnap].
  { apply (@full_run Example.lib), full_init. }
  split; [exact Hq|].
  fold st' in Hsnap. rewrite Hsnap. vm_compute. reflexivity.
Defined.

(** X2.  A tick that finds no line it can parse among the first ten
    waiting ones (none waiting, empty lines, garbage) takes those lines
    away and leaves recorder, buffer, markers, pending event and files
    (as written and on disk) as they are.  It prints nothing, except that with auto-scaling on and
    limits that are not finite (a sample that is infinite or not a number
    is in the buffer) it prints one error line, as every such tick does. *)
Theorem rejected_tick `{PyLib} (clk : nat -> Clock) (st : State) :
  tick_samples (ser_in (world st)) = [] ->
  recorder (update clk st) = recorder st
  /\ view (update clk st) = view st
  /\ files (world (update clk st)) = files (world st)
  /\ disk (world (update clk st)) = disk (world st)
  /\ ser_in (world (update clk st)) = drop 10 (ser_in (world st))
  /\ console (world (update clk st))
     = console (world st)
       ++ (if is_auto_scale (view st)
              && set_ylim_raises (auto_ylim (statistics (view st)))
           then [MsgError] else [])
  /\ (is_auto_scale (view st) = false ->
      console (world (update clk st)) = console (world st)).
Proof.
  intros Hnone.
  destruct (update_rejected clk st Hnone) as (Hrec & Hview & Hfiles & Hout & Hq).
  split_and!; try done.
  - unfold update. by rewrite read_lines_rejected.
  - intros Hoff. rewrite Hout, Hoff. simpl. by rewrite app_nil_r.
Qed.

(** Garbage only, with a label pending and auto-scaling off. *)
Lemma rejected_tick_witness :
  let st := @run Example.lib
              [EvPreset "Touch"; EvSerial [""; "volts"; "1,5"]%string] (init ∅) in
  view (@update Example.lib (fun _ => Example.clock0) st) = view st
  /\ pending_event (view (@update Example.lib (fun _ => Example.clock0) st))
     = Some "Touch"%string
  /\ ser_in (world (@update Example.lib (fun _ => Example.clock0) st)) = []
  /\ console (world (@update Example.lib (fun _ => Example.clock0) st)) = [].
Proof.
  intros st.
  destruct (@rejected_tick Example.lib (fun _ => Example.clock0) st eq_refl)
    as (_ & Hview & _ & _ & Hq & _ & Hout).
  refine (conj Hview (conj _ (conj Hq (Hout eq_refl)))). rewrite Hview. reflexivity.
Defined.

(** The handler at work: auto-scaling is on and the sample is infinite,
    so the limits are not finite and the tick prints the error. *)
Example infinite_sample_prints_error :
  console (world (@update Example.lib (fun _ => Example.clock0)
                    (on_sample Example.clock0 infinity
                       (func_check "Auto Scale" (init ∅)))))
  = [MsgError].
Proof. vm_compute. reflexivity. Qed.

(** X3.  In every state the program reaches, the newest item of the
    buffer is [last_valid_voltage]: the red dot that a tick draws at the
    right edge lies on the end of the line, also at start-up and after a
    reset. *)
Theorem current_point_on_line `{PyLib} (st : State) :
  reachable st ->
  last (snapshot st) = Some (last_valid_voltage (view st)).
Proof.
  intros (fs & evs & ->).
  pose proof (run_inv
    (fun _ st => full st /\ last (snapshot st) = Some (last_valid_voltage (view st)))
    (fun _ => true)) as Hinv.
  apply (Hinv) with (vs := []) (st := init fs); try done.
  - clear. intros _ st now v [Hfull Hlast]. split; [by apply full_on_sample|].
    by rewrite snapshot_on_sample, last_snoc, last_valid_voltage_on_sample.
  - clear. intros _ st e _ Hio [Hfull Hlast].
    split; [by apply (full_run [e])|].
    rewrite last_valid_voltage_step by done.
    destruct (is_clear e) eqn:Hclear.
    + destruct e; try done. simpl. rewrite snapshot_clear by apply Hfull.
      apply last_replicate, MAX_POINTS_pos.
    + unfold snapshot in *. by rewrite data_buffer_step.
  - clear. by induction evs.
Qed.

Lemma current_point_on_line_witness :
  last (snapshot (@run Example.lib
                    [EvSerial ["1.5"; "2.25"]%string; EvUpdate (fun _ => Example.clock0);
                     EvClear] (init ∅)))
  = Some 2.25%float.
Proof.
  apply (@current_point_on_line Example.lib). exists ∅. eexists. reflexivity.
Defined.

(** X4.  After a reset the buffer is flat, so its trend is [Stable]
    whatever the last voltage was (infinite and not-a-number included),
    and the panel of the next tick says so unless that tick accepts a
    sample.  The same holds at start-up. *)
Theorem reset_then_stable `{PyLib} (clk : nat -> Clock) (st : State) :
  reachable st ->
  classify (snapshot (func_clear st)) = Stable
  /\ (tick_samples (ser_in (world st)) = [] ->
      trend_str <$> text_right (widgets (update clk (func_clear st))) = Some Stable)
  /\ (forall fs, trend_str <$> text_right (widgets (update clk (init fs))) = Some Stable).
Proof.
  intros Hreach. destruct (full_reachable st Hreach) as [Hmax Hlen].
  assert (Hflat : classify (snapshot (func_clear st)) = Stable).
  { rewrite snapshot_clear by done. apply classify_constant, MAX_POINTS_window. }
  split_and!; [done|..].
  - intros Hnone. rewrite text_right_update.
    destruct (update_rejected clk (func_clear st) Hnone) as (_ & Hview & _).
    change (Some (classify (Deque.items (data_buffer
              (view (update clk (func_clear st)))))) = Some Stable).
    rewrite Hview. exact (f_equal Some Hflat).
  - intros fs. rewrite text_right_update.
    destruct (update_rejected clk (init fs) eq_refl) as (_ & Hview & _).
    change (Some (classify (Deque.items (data_buffer
              (view (update clk (init fs)))))) = Some Stable).
    rewrite Hview. fold (snapshot (init fs)). rewrite snapshot_init.
    exact (f_equal Some (classify_constant _ _ MAX_POINTS_window)).
Qed.

Lemma reset_then_stable_witness :
  classify (snapshot (func_clear
    (@run Example.lib
       [EvSerial ["1.5"; "2.25"]%string; EvUpdate (fun _ => Example.clock0)] (init ∅))))
  = Stable.
Proof.
  apply (@reset_then_stable Example.lib (fun _ => Example.clock0)).
  exists ∅. eexists. reflexivity.
Defined.

(** X5.  The trend looks at the last 50 samples only: once a run without
    reset has accepted 50 samples, the trend of the buffer is the trend
    of the accepted samples, whatever the buffer held before (the fillers
    of start-up included). *)
Theorem trend_from_recent_samples `{PyLib} (evs : list event) (st : State) :
  full st ->
  no_clear evs = true ->
  50 <= length (accepted (ser_in (world st)) evs) ->
  classify (snapshot (run evs st)) = classify (accepted (ser_in (world st)) evs).
Proof.
  intros Hfull Hev Hlen. rewrite snapshot_run by done.
  set (vs := accepted (ser_in (world st)) evs) in *.
  pose proof MAX_POINTS_window as Hwin. destruct Hfull as [_ Hfull].
  rewrite <- (classify_window (Deque.lastn _ _))
    by (rewrite DequeFacts.lastn_length, length_app; lia).
  rewrite <- (classify_window vs) by done. f_equal.
  unfold Deque.lastn. rewrite drop_drop, length_drop, !length_app, drop_app.
  rewrite drop_ge by lia. simpl. f_equal. lia.
Qed.

(** Fifty equal samples after start-up: the step from the fillers to the
    samples is outside the window. *)
Lemma trend_from_recent_samples_witness :
  classify (snapshot (@run Example.lib
                        (EvSerial (replicate 50 "1.5"%string)
                         :: replicate 5 (EvUpdate (fun _ => Example.clock0)))
                        (init ∅)))
  = Stable.
Proof.
  etransitivity.
  - apply (@trend_from_recent_samples Example.lib
             (EvSerial (replicate 50 "1.5"%string)
              :: replicate 5 (EvUpdate (fun _ => Example.clock0))) (init ∅)).
    + apply full_init.
    + reflexivity.
    + apply (bool_decide_unpack _). vm_compute. exact I.
  - vm_compute. reflexivity.
Defined.

(** ** The recorder over whole runs *)

Section recorder_runs.
Context `{PyLib}.

Lemma recorder_ok_on_sample now v st :
  recorder_ok st -> recorder_ok (on_sample now v st).
Proof.
  unfold recorder_ok, on_sample. destruct (take_event _) as [note v2].
  unfold save_row. simpl.
  destruct (is_recording (recorder st)) eqn:Hrec; [|simpl; by rewrite Hrec].
  intros (Hfile & Hwriter & Hname & (rows & Hrows) & Hlabel & Htitle).
  rewrite Hwriter. simpl. split_and!; try done.
  exists (rows ++ [data_row now v note]).
  by rewrite lookup_insert_eq, Hrows.
Qed.

Lemma recorder_ok_update clk st : recorder_ok st -> recorder_ok (update clk st).
Proof.
  intros Hok.
  assert (Hloop : recorder_ok (read_lines clk 10 st)).
  { pose proof (read_lines_inv (fun _ st' => recorder_ok st') clk) as Hinv.
    apply (Hinv) with (vs := []); try done.
    clear. intros _ st' now v. apply recorder_ok_on_sample. }
  done.
Qed.

Lemma recorder_ok_toggle now open_ok st :
  recorder_ok st -> recorder_ok (func_record_toggle now open_ok st).
Proof.
  unfold recorder_ok, func_record_toggle.
  destruct (is_recording (recorder st)) eqn:Hrec; simpl.
  - intros (Hfile & _). rewrite Hfile. auto.
  - intros (Hfile & Hwriter & Hlabel). destruct open_ok; simpl.
    + split_and!; eauto. exists []. by rewrite lookup_insert_eq.
    + done.
Qed.

Lemma recorder_ok_reachable st : reachable st -> recorder_ok st.
Proof.
  intros (fs & evs & ->).
  induction evs as [|e evs IH] using rev_ind.
  - unfold recorder_ok. simpl. auto.
  - rewrite run_snoc. destruct e; simpl.
    + done.
    + by apply recorder_ok_toggle.
    + done.
    + done.
    + done.
    + unfold func_custom_record. by case_decide.
    + by apply recorder_ok_update.
Qed.

Lemma disk_ok_on_sample now v st :
  recorder_ok st -> disk_ok st -> disk_ok (on_sample now v st).
Proof.
  unfold recorder_ok, disk_ok, on_sample. destruct (take_event _) as [note v2].
  unfold save_row. simpl.
  destruct (is_recording (recorder st)) eqn:Hrec; [|simpl; by rewrite Hrec].
  intros (Hfile & Hwriter & _) ((rows & Hrows & Hdisk) & Hother).
  rewrite Hwriter. simpl. split.
  - exists (rows ++ [data_row now v note]).
    rewrite !lookup_insert_eq, Hrows. simpl. split; [done|].
    by destruct rows.
  - intros f Hf. rewrite !lookup_insert_ne by done. by apply Hother.
Qed.

Lemma disk_ok_update clk st :
  recorder_ok st -> disk_ok st -> disk_ok (update clk st).
Proof.
  intros Hok Hdisk.
  pose proof (read_lines_inv (fun _ st' => recorder_ok st' /\ disk_ok st') clk) as Hinv.
  destruct (Hinv) with (loop_limit := 10) (st := st) (vs := @nil float)
    as [[_ Hloop] _]; try done.
  clear. intros _ st' now v [Hok Hdisk].
  split; [by apply recorder_ok_on_sample|by apply disk_ok_on_sample].
Qed.

Lemma disk_ok_toggle now open_ok st :
  recorder_ok st -> disk_ok st -> disk_ok (func_record_toggle now open_ok st).
Proof.
  unfold recorder_ok, disk_ok, func_record_toggle.
  destruct (is_recording (recorder st)) eqn:Hrec; simpl.
  - intros (Hfile & _) ((rows & Hrows & Hdisk) & Hother). rewrite Hfile. simpl.
    apply map_eq. intros f.
    destruct (decide (f = current_filename (recorder st))) as [->|Hf].
    + by rewrite lookup_insert_eq, Hrows.
    + rewrite lookup_insert_ne by done. by apply Hother.
  - intros _ Hdisk. destruct open_ok; simpl; [|done]. split.
    + exists []. by rewrite !lookup_insert_eq.
    + intros f Hf. rewrite !lookup_insert_ne by done. by rewrite Hdisk.
Qed.

Lemma disk_ok_reachable st : reachable st -> disk_ok st.
Proof.
  intros (fs & evs & ->).
  induction evs as [|e evs IH] using rev_ind; [done|].
  assert (Hok : recorder_ok (run evs (init fs))).
  { apply recorder_ok_reachable. by exists fs, evs. }
  rewrite run_snoc. destruct e; simpl.
  - done.
  - by apply disk_ok_toggle.
  - done.
  - done.
  - done.
  - unfold func_custom_record. by case_decide.
  - by apply disk_ok_update.
Qed.

(** The run counter after a run. *)
Lemma run_id_run evs : forall st,
  current_run_id (recorder (run evs st))
  = current_run_id (recorder st) + starts (is_recording (recorder st)) evs.
Proof.
  induction evs as [|e evs IH]; intros st; [simpl; lia|].
  change (run (e :: evs) st) with (run evs (step e st)). rewrite IH.
  destruct e; unfold step; [done| |done|done|done| |].
  - unfold func_record_toggle.
    destruct (is_recording (recorder st)) eqn:Hrec; simpl; [done|].
    destruct open_ok; simpl; lia.
  - unfold func_custom_record. by case_decide.
  - by destruct (session_fields_update clk st) as (-> & -> & _).
Qed.

End recorder_runs.

(** X6.  In every state the program reaches the recording flag, the open
    file and the file system agree.  While the flag is up, the file and
    the writer are those of [current_filename], that name is the one
    built for the current run number, and the rows written to the file
    begin with the header row; on disk the file exists, empty as long as
    no sample of the session was saved (the header waits in the buffer of
    the file object) and holding the header and every row written from
    the first save on, and every other file is on disk as written.  While
    the flag is down, no file and no writer are held and everything
    written is on disk. *)
Theorem recorder_agrees_with_files `{PyLib} (st : State) :
  reachable st ->
  let r := recorder st in
  let header := [CStr "Timestamp"; CStr "Time_Sec"; CStr "Voltage"; CStr "Event_Note"] in
  (is_recording r = true ->
   csv_file r = Some (current_filename r)
   /\ csv_writer r = Some (current_filename r)
   /\ (exists ts, current_filename r = run_filename (current_run_id r) ts)
   /\ (exists rows,
        files (world st) !! current_filename r = Some (header :: rows)
        /\ disk (world st) !! current_filename r
           = Some (match rows with [] => [] | _ :: _ => header :: rows end))
   /\ (forall f, f <> current_filename r ->
                 disk (world st) !! f = files (world st) !! f))
  /\ (is_recording r = false ->
      csv_file r = None /\ csv_writer r = None
      /\ disk (world st) = files (world st)).
Proof.
  intros Hreach r header. pose proof (recorder_ok_reachable st Hreach) as Hok.
  pose proof (disk_ok_reachable st Hreach) as Hdisk.
  unfold recorder_ok in Hok. unfold disk_ok in Hdisk. fold r in Hok, Hdisk.
  destruct (is_recording r); split; intros Hflag; try done.
  - destruct Hok as (? & ? & ? & _). by destruct Hdisk as [? ?].
  - by destruct Hok as (? & ? & _).
Qed.

(** A failed start, then a session: at its start the file of run 2 is
    empty on disk though the header is written; after one sample the disk
    holds the header and the row. *)
Lemma recorder_agrees_with_files_witness :
  let st0 := @run Example.lib
               [EvRecord Example.clock0 false; EvRecord Example.clock1 true] (init ∅) in
  let st := @run Example.lib
              [EvSerial ["1.5"]%string; EvUpdate (fun _ => Example.clock1)] st0 in
  (files (world st0) !! "Run_02_143100.csv"%string
   = Some [[CStr "Timestamp"; CStr "Time_Sec"; CStr "Voltage"; CStr "Event_Note"]]
   /\ disk (world st0) !! "Run_02_143100.csv"%string = Some [])
  /\ csv_writer (recorder st) = Some "Run_02_143100.csv"%string
  /\ exists rows,
       files (world st) !! "Run_02_143100.csv"%string
       = Some ([CStr "Timestamp"; CStr "Time_Sec"; CStr "Voltage"; CStr "Event_Note"]
               :: rows)
       /\ disk (world st) !! "Run_02_143100.csv"%string
          = Some (match rows with
                  | [] => []
                  | _ :: _ =>
                      [CStr "Timestamp"; CStr "Time_Sec"; CStr "Voltage"; CStr "Event_Note"]
                      :: rows
                  end).
Proof.
  intros st0 st.
  destruct (@recorder_agrees_with_files Example.lib st) as [Hactive _].
  { exists ∅, [EvRecord Example.clock0 false; EvRecord Example.clock1 true;
               EvSerial ["1.5"]%string; EvUpdate (fun _ => Example.clock1)].
    reflexivity. }
  destruct (Hactive eq_refl) as (_ & Hwriter & _ & Hrows & _).
  split; [|exact (conj Hwriter Hrows)].
  vm_compute. split; reflexivity.
Defined.

(** X7.  The record button and the title tell the truth: in every state
    the program reaches, the button reads [STOP (Run n)] for the current
    run number and the title names the file being written exactly while
    the flag is up, and the button offers to start while it is down (also
    after a start that failed). *)
Theorem record_button_agrees `{PyLib} (st : State) :
  reachable st ->
  let r := recorder st in
  (is_recording r = true ->
   btn_record_label (widgets st)
   = ("STOP (Run " +:+ fmt_d (current_run_id r) +:+ ")")%string
   /\ title (widgets st) = ("Recording to: " +:+ current_filename r)%string)
  /\ (is_recording r = false ->
      btn_record_label (widgets st) = "Start REC"%string
      \/ btn_record_label (widgets st) = "Start New REC"%string).
Proof.
  intros Hreach r. pose proof (recorder_ok_reachable st Hreach) as Hok.
  unfold recorder_ok in Hok. fold r in Hok.
  destruct (is_recording r); split; intros Hflag; try done.
  - by destruct Hok as (_ & _ & _ & _ & ? & ?).
  - by destruct Hok as (_ & _ & ?).
Qed.

Lemma record_button_agrees_witness :
  let st := @run Example.lib
              [EvRecord Example.clock0 true; EvRecord Example.clock0 true;
               EvRecord Example.clock1 false] (init ∅) in
  btn_record_label (widgets st) = "Start REC"%string
  \/ btn_record_label (widgets st) = "Start New REC"%string.
Proof.
  intros st.
  destruct (@record_button_agrees Example.lib st) as [_ Hidle].
  { exists ∅. eexists. reflexivity. }
  exact (Hidle eq_refl).
Defined.

(** X8.  The run counter counts the clicks that start a session or try
    to: after any run it is the counter before plus the number of clicks
    on the record button made while the flag was down, whether or not the
    file could be opened.  So it never decreases, and no tick, reset or
    tag changes it. *)
Theorem run_id_counts_starts `{PyLib} (evs : list event) (st : State) :
  current_run_id (recorder (run evs st))
  = current_run_id (recorder st) + starts (is_recording (recorder st)) evs
  /\ current_run_id (recorder st) <= current_run_id (recorder (run evs st))
  /\ (no_toggle evs = true ->
      current_run_id (recorder (run evs st)) = current_run_id (recorder st)).
Proof.
  pose proof (run_id_run evs st) as Hcount. split_and!; [done|lia|].
  intros Hev. rewrite Hcount.
  assert (Hnone : forall rec, starts rec evs = 0); [|rewrite Hnone; lia].
  clear Hcount. induction evs as [|e evs IH]; intros rec; [done|].
  simpl in Hev. apply andb_prop in Hev as [He Hev].
  destruct e; try done; simpl; by apply IH.
Qed.

(** ** File names *)

Section file_names.

Lemma append_length s t :
  String.length (s +:+ t) = String.length s + String.length t.
Proof. induction s as [|c s IH]; simpl; [done|]. by rewrite IH. Qed.

Lemma append_inv_tail t : forall s1 s2, s1 +:+ t = s2 +:+ t -> s1 = s2.
Proof.
  induction s1 as [|c s1 IH]; intros [|c' s2] Heq; simpl in Heq.
  - done.
  - apply (f_equal String.length) in Heq.
    rewrite !append_length in Heq. simpl in Heq. lia.
  - apply (f_equal String.length) in Heq.
    rewrite !append_length in Heq. simpl in Heq. lia.
  - injection Heq as -> Heq. f_equal. by apply IH.
Qed.

(** Two names that agree after a separator-free stem have the same stem. *)
Lemma split_at_underscore r1 r2 : forall d1 d2,
  underscore_free d1 -> underscore_free d2 ->
  d1 +:+ String "_" r1 = d2 +:+ String "_" r2 -> d1 = d2 /\ r1 = r2.
Proof.
  induction d1 as [|c d1 IH]; intros [|c' d2] Hd1 Hd2 Heq; simpl in *.
  - by injection Heq as ->.
  - injection Heq as <- _. by destruct Hd2.
  - injection Heq as -> _. by destruct Hd1.
  - injection Heq as -> Heq. destruct Hd1 as [_ Hd1], Hd2 as [_ Hd2].
    destruct (IH d2 Hd1 Hd2 Heq) as [-> ->]. done.
Qed.

Lemma pretty_N_char_not_underscore x : pretty_N_char x <> "_"%char.
Proof. unfold pretty_N_char. by repeat case_match. Qed.

Lemma pretty_N_go_underscore_free x : forall s,
  underscore_free s -> underscore_free (pretty_N_go x s).
Proof.
  induction (N.lt_wf_0 x) as [x _ IH]; intros s Hs.
  assert (x = 0 \/ 0 < x)%N as [->|Hpos] by lia.
  - by rewrite pretty_N_go_0.
  - rewrite pretty_N_go_step by done. apply IH.
    + by apply N.div_lt.
    + split; [apply pretty_N_char_not_underscore|done].
Qed.

Lemma pretty_nat_underscore_free (n : nat) : underscore_free (pretty n).
Proof.
  unfold pretty, pretty_nat, pretty, pretty_N. case_decide; [by split|].
  by apply pretty_N_go_underscore_free.
Qed.

(** The numeral of a positive number does not begin with a zero. *)
Lemma pretty_N_go_leading x : forall s,
  (0 < x)%N -> exists c rest, pretty_N_go x s = String c rest /\ c <> "0"%char.
Proof.
  induction (N.lt_wf_0 x) as [x _ IH]; intros s Hpos.
  rewrite pretty_N_go_step by done.
  assert (x < 10 \/ 10 <= x)%N as [Hsmall|Hbig] by lia.
  - rewrite N.div_small, pretty_N_go_0 by done. eexists _, _. split; [done|].
    rewrite N.mod_small by done.
    assert (x = 1 \/ x = 2 \/ x = 3 \/ x = 4 \/ x = 5 \/ x = 6
            \/ x = 7 \/ x = 8 \/ x = 9)%N as Hx by lia.
    by repeat (destruct Hx as [->|Hx]; [done|]); subst.
  - apply IH; [by apply N.div_lt|]. apply N.div_str_pos. by split.
Qed.

Lemma fmt_02d_underscore_free n : underscore_free (fmt_02d n).
Proof.
  unfold fmt_02d. case_decide; [|apply pretty_nat_underscore_free].
  split; [done|apply pretty_nat_underscore_free].
Qed.

Lemma fmt_02d_inj n m : fmt_02d n = fmt_02d m -> n = m.
Proof.
  assert (Hmixed : forall a b, a < 10 -> ~ b < 10 ->
                   ("0" +:+ pretty a)%string <> pretty b).
  { intros a b Ha Hb Heq. generalize dependent (pretty a). intros pa Heq.
    unfold pretty, pretty_nat, pretty, pretty_N in Heq.
    case_decide; [lia|].
    destruct (pretty_N_go_leading (N.of_nat b) "") as (c & rest & Hgo & Hc); [lia|].
    rewrite Hgo in Heq. simpl in Heq. by injection Heq as <- _. }
  unfold fmt_02d. intros Heq. repeat case_decide.
  - simpl in Heq. injection Heq as Heq. by apply (inj pretty).
  - by destruct (Hmixed n m).
  - by destruct (Hmixed m n).
  - by apply (inj pretty).
Qed.

Lemma run_filename_run_id n m ts ts' :
  run_filename n ts = run_filename m ts' -> n = m /\ ts = ts'.
Proof.
  unfold run_filename. intros Heq. simpl in Heq. injection Heq as Heq.
  destruct (split_at_underscore _ _ _ _ (fmt_02d_underscore_free n)
              (fmt_02d_underscore_free m) Heq) as [Hid Hts].
  split; [by apply fmt_02d_inj|by eapply append_inv_tail].
Qed.

End file_names.

(** X9.  File names identify sessions: two names built by the start
    transition are equal only for the same run number and the same time
    stamp.  Since every start takes a new run number (X8), no two sessions
    of one process share a file, even when they start within the same
    second. *)
Theorem run_filename_inj (n m : nat) (ts ts' : string) :
  run_filename n ts = run_filename m ts' <-> n = m /\ ts = ts'.
Proof.
  split; [apply run_filename_run_id|]. by intros [-> ->].
Qed.

(** ** Files of finished sessions *)

Section finished_files.
Context `{PyLib}.

(** A sample writes to the file of the writer, if at all. *)
Lemma files_on_sample_other now v st g :
  (is_recording (recorder st) = true -> csv_writer (recorder st) <> Some g) ->
  files (world (on_sample now v st)) !! g = files (world st) !! g.
Proof.
  intros Hother. unfold on_sample. destruct (take_event _) as [note v2].
  unfold save_row. simpl.
  destruct (is_recording (recorder st)) eqn:Hrec; [|done].
  destruct (csv_writer (recorder st)) as [f|] eqn:Hwriter; [|done].
  simpl. apply lookup_insert_ne. intros ->. by apply Hother.
Qed.

(** The state of a run that began idle with the run counter at [n]: the
    counter has not gone back, a session that is open writes to a file
    named for a later run, and a file [g] named for a run up to [n] is as
    it was. *)
Lemma later_sessions_inv (n : nat) (g : string) (old : option (list row)) evs :
  (forall k ts, n < k -> g <> run_filename k ts) ->
  forall st,
    n <= current_run_id (recorder st) ->
    (is_recording (recorder st) = true ->
     n < current_run_id (recorder st)
     /\ exists ts, csv_writer (recorder st)
                   = Some (run_filename (current_run_id (recorder st)) ts)) ->
    files (world st) !! g = old ->
    files (world (run evs st)) !! g = old.
Proof.
  intros Hg st Hn Hact Hold.
  pose proof (run_inv
    (fun _ st' =>
       n <= current_run_id (recorder st')
       /\ (is_recording (recorder st') = true ->
           n < current_run_id (recorder st')
           /\ exists ts, csv_writer (recorder st')
                         = Some (run_filename (current_run_id (recorder st')) ts))
       /\ files (world st') !! g = old)
    (fun _ => true)) as Hinv.
  apply (Hinv) with (vs := []) (st := st); try done.
  - clear -Hg. intros _ st now v (Hn & Hact & Hold).
    destruct (session_fields_on_sample now v st) as (-> & -> & _ & -> & _).
    split_and!; try done.
    rewrite files_on_sample_other; [done|].
    intros Hrec Hwriter. destruct (Hact Hrec) as (Hlt & ts & Hname).
    rewrite Hname in Hwriter. injection Hwriter as Heq. by eapply Hg.
  - clear -Hg. intros _ st e _ Hio (Hn & Hact & Hold).
    destruct (is_toggle e) eqn:Htog.
    + destruct e; try done. simpl. unfold func_record_toggle.
      destruct (is_recording (recorder st)) eqn:Hrec; simpl.
      * split_and!; [done|done|]. by destruct (csv_file (recorder st)).
      * destruct open_ok; simpl.
        -- split_and!; [lia| |].
           ++ intros _. split; [lia|eauto].
           ++ rewrite lookup_insert_ne; [done|]. intros Heq. symmetry in Heq.
              eapply Hg; [|exact Heq]. lia.
        -- split_and!; [lia|done|done].
    + by destruct (recorder_step e st Hio Htog) as [-> ->].
  - clear. by induction evs.
Qed.

End finished_files.

(** X10.  A finished session's file is safe from the rest of the run.
    From a state in which nothing is being recorded, no later click, tick
    or other callback changes, creates or truncates a file whose name is
    the name of a run up to the current run number: later sessions take
    later numbers and so other names. *)
Theorem finished_files_untouched `{PyLib} (k : nat) (ts : string)
    (evs : list event) (st : State) :
  is_recording (recorder st) = false ->
  k <= current_run_id (recorder st) ->
  files (world (run evs st)) !! run_filename k ts
  = files (world st) !! run_filename k ts.
Proof.
  intros Hidle Hk.
  apply (later_sessions_inv (current_run_id (recorder st))); try done.
  - intros k' ts' Hlt Heq. apply run_filename_run_id in Heq as [-> _]. lia.
  - by rewrite Hidle.
Qed.

(** The first session is over; a second one in the same second and a
    failed third start leave its file alone. *)
Lemma finished_files_untouched_witness :
  let st := @run Example.lib
              [EvRecord Example.clock0 true; EvSerial ["1.5"]%string;
               EvUpdate (fun _ => Example.clock0); EvRecord Example.clock0 true]
              (init ∅) in
  files (world (@run Example.lib
                  [EvRecord Example.clock0 true; EvSerial ["2.5"]%string;
                   EvUpdate (fun _ => Example.clock0); EvRecord Example.clock0 true;
                   EvRecord Example.clock0 false] st))
    !! "Run_01_143000.csv"%string
  = Some [header_row; [CStr "14:30:00.000"; CStr "12.500"; CFloat 1.5; CStr ""]].
Proof.
  intros st. etransitivity.
  - apply (@finished_files_untouched Example.lib 1 "143000" _ st).
    + reflexivity.
    + apply (bool_decide_unpack _). vm_compute. exact I.
  - vm_compute. reflexivity.
Defined.

(** ** Markers over whole runs *)

Section marker_runs.
Context `{PyLib}.

Lemma active_markers_on_sample now v st :
  active_markers (view (on_sample now v st))
  = filter alive (age <$> active_markers (view st))
    ++ match pending_event (view st) with
       | Some label => [{| t_lbl := label; cur_x := (Z.of_nat MAX_POINTS - 1)%Z |}]
       | None => []
       end.
Proof.
  rewrite on_sample_view. unfold take_event. simpl. rewrite move_markers_filter.
  destruct (pending_event (view st)); simpl; [done|]. by rewrite app_nil_r.
Qed.

Lemma moved_above a ms :
  Forall (Z.lt a) (cur_x <$> ms) ->
  Forall (Z.lt (a - 1)) (cur_x <$> filter alive (age <$> ms)).
Proof.
  induction ms as [|m ms IH]; [done|].
  rewrite !fmap_cons, filter_cons. intros [Hm Hms]%Forall_cons.
  case_decide; [|by apply IH]. rewrite fmap_cons. constructor; [simpl; lia|by apply IH].
Qed.

Lemma moved_sorted ms :
  StronglySorted Z.lt (cur_x <$> ms) ->
  StronglySorted Z.lt (cur_x <$> filter alive (age <$> ms)).
Proof.
  induction ms as [|m ms IH]; [done|].
  rewrite !fmap_cons, filter_cons. intros [Hm Hms]%StronglySorted_cons.
  case_decide; [|by apply IH]. rewrite fmap_cons.
  apply StronglySorted_cons. split; [|by apply IH].
  by apply (moved_above (cur_x m)).
Qed.

Lemma moved_bounds (hi : Z) ms :
  Forall (fun m => (cur_x m <= hi)%Z) ms ->
  Forall (fun m => (0 <= cur_x m <= hi - 1)%Z) (filter alive (age <$> ms)).
Proof.
  induction ms as [|m ms IH]; [done|].
  rewrite fmap_cons, filter_cons. intros [Hm Hms]%Forall_cons.
  case_decide as Halive; [|by apply IH].
  constructor; [|by apply IH]. unfold alive in Halive. simpl in *. lia.
Qed.

Lemma markers_ok_on_sample now v st :
  markers_ok (active_markers (view st)) ->
  markers_ok (active_markers (view (on_sample now v st))).
Proof.
  intros [Hsorted Hbounds]. rewrite active_markers_on_sample.
  assert (Hmoved : Forall (fun m => (0 <= cur_x m <= Z.of_nat MAX_POINTS - 1 - 1)%Z)
                     (filter alive (age <$> active_markers (view st)))).
  { apply moved_bounds. eapply Forall_impl; [exact Hbounds|]. simpl. lia. }
  pose proof MAX_POINTS_pos.
  split.
  - rewrite fmap_app. apply StronglySorted_app_2.
    + intros x1 x2 Hx1 Hx2.
      apply list_elem_of_fmap in Hx1 as (m & -> & Hm).
      rewrite Forall_forall in Hmoved. specialize (Hmoved m Hm).
      destruct (pending_event (view st)); simpl in Hx2.
      * apply list_elem_of_singleton in Hx2 as ->. lia.
      * by apply elem_of_nil in Hx2.
    + by apply moved_sorted.
    + destruct (pending_event (view st)); simpl; repeat constructor.
  - apply Forall_app. split.
    + eapply Forall_impl; [exact Hmoved|]. simpl. lia.
    + destruct (pending_event (view st)); repeat constructor; simpl; lia.
Qed.

Lemma markers_ok_reachable st :
  reachable st -> markers_ok (active_markers (view st)).
Proof.
  intros (fs & evs & ->).
  pose proof (run_inv (fun _ st => markers_ok (active_markers (view st)))
                      (fun _ => true)) as Hinv.
  apply (Hinv) with (vs := []) (st := init fs); try done.
  - clear. intros _ st now v. apply markers_ok_on_sample.
  - clear. intros _ st e _ Hio Hok. rewrite active_markers_step by done.
    destruct (is_clear e); [|done]. split; constructor.
  - clear. by induction evs.
  - split; constructor.
Qed.

(** Strictly increasing integers between two bounds are few. *)
Lemma sorted_length (hi : Z) : forall l (lo : Z),
  StronglySorted Z.lt l -> Forall (fun x => (lo <= x <= hi)%Z) l ->
  (Z.of_nat (length l) <= Z.max 0 (hi - lo + 1))%Z.
Proof.
  induction l as [|x l IH]; intros lo Hsorted Hbounds; [simpl; lia|].
  apply StronglySorted_cons in Hsorted as [Hx Hsorted].
  apply Forall_cons in Hbounds as [Hlo Hbounds].
  specialize (IH (x + 1)%Z Hsorted).
  assert (Hrest : Forall (fun y => (x + 1 <= y <= hi)%Z) l).
  { rewrite Forall_forall in Hx, Hbounds |- *. intros y Hy.
    specialize (Hx y Hy). specialize (Hbounds y Hy). lia. }
  specialize (IH Hrest). simpl length. lia.
Qed.

Lemma full_tagged_sample x st : full st -> full (tagged_sample x st).
Proof.
  destruct x as [[now v] [label|]]; intros Hfull; simpl; by apply full_on_sample.
Qed.

Lemma full_feed xs : forall st, full st -> full (feed xs st).
Proof.
  induction xs as [|x xs IH]; intros st Hfull; [done|].
  apply IH. by apply full_tagged_sample.
Qed.

Lemma feed_snoc xs x st : feed (xs ++ [x]) st = tagged_sample x (feed xs st).
Proof. unfold feed. by rewrite foldl_app. Qed.

End marker_runs.

(** X11.  The markers stay on the chart and in order: in every state the
    program reaches, the positions of the active markers lie between 0
    and [MAX_POINTS - 1] and increase strictly from the oldest marker to
    the newest, so there are never more than [MAX_POINTS] of them. *)
Theorem markers_on_chart `{PyLib} (st : State) :
  reachable st ->
  let ms := active_markers (view st) in
  StronglySorted Z.lt (cur_x <$> ms)
  /\ Forall (fun m => (0 <= cur_x m <= Z.of_nat MAX_POINTS - 1)%Z) ms
  /\ length ms <= MAX_POINTS.
Proof.
  intros Hreach ms. destruct (markers_ok_reachable st Hreach) as [Hsorted Hbounds].
  fold ms in Hsorted, Hbounds. split_and!; [done|done|].
  pose proof (sorted_length (Z.of_nat MAX_POINTS - 1) (cur_x <$> ms) 0 Hsorted) as Hlen.
  rewrite length_fmap in Hlen. rewrite Forall_fmap in Hlen.
  specialize (Hlen Hbounds). lia.
Qed.

Lemma markers_on_chart_witness :
  let ms := active_markers (view (@run Example.lib
              [EvPreset "Touch"; EvSerial ["1.5"; "2.5"]%string;
               EvUpdate (fun _ => Example.clock0); EvCustom "Mark";
               EvSerial ["3.5"]%string; EvUpdate (fun _ => Example.clock0)] (init ∅))) in
  ms = [{| t_lbl := "Touch"; cur_x := 297 |}; {| t_lbl := "Mark"; cur_x := 299 |}]
  /\ StronglySorted Z.lt (cur_x <$> ms).
Proof.
  intros ms. split; [vm_compute; reflexivity|].
  apply (@markers_on_chart Example.lib). exists ∅. eexists. reflexivity.
Defined.

(** X12.  A marker stays on its sample.  When a sample takes a pending
    label, the marker is created at the position of that sample in the
    buffer, and as further samples arrive (tagged or not) the marker and
    the sample move left together: as long as the sample is in the buffer
    the marker is active and its position is the index of the sample. *)
Theorem marker_tracks_sample (label : string) (now : Clock) (v : float)
    (xs : list (Clock * float * option string)) (st : State) :
  full st ->
  length xs < MAX_POINTS ->
  let st' := feed xs (on_sample now v (make_callback label st)) in
  let i := MAX_POINTS - 1 - length xs in
  {| t_lbl := label; cur_x := Z.of_nat i |} ∈ active_markers (view st')
  /\ snapshot st' !! i = Some v.
Proof.
  intros Hfull. pose proof MAX_POINTS_pos as Hpos.
  assert (Hfull0 : full (make_callback label st)) by by destruct Hfull.
  assert (Hpend : pending_event (view (make_callback label st)) = Some label) by done.
  clear Hfull. revert Hfull0 Hpend.
  generalize (make_callback label st). clear st. intros st Hfull Hpend.
  induction xs as [|x xs IH] using rev_ind; intros Hlen st' i.
  - unfold st', i, feed. cbn [foldl length]. split.
    + rewrite active_markers_on_sample, Hpend. apply elem_of_app. right.
      apply list_elem_of_singleton. f_equal; lia.
    + rewrite snapshot_on_sample by done. destruct Hfull as [_ Hfull].
      rewrite lookup_app_r by (rewrite length_drop; lia).
      rewrite length_drop, Hfull.
      by replace (MAX_POINTS - 1 - 0 - (MAX_POINTS - 1)) with 0 by lia.
  - rewrite length_app in Hlen. simpl in Hlen.
    destruct IH as [Hmarker Hsample]; [lia|].
    set (st1 := feed xs (on_sample now v st)) in *.
    assert (Hfull1 : full st1) by by apply full_feed, full_on_sample.
    unfold st', i. rewrite feed_snoc. fold st1. rewrite length_app.
    cbn [length]. destruct x as [[now' v'] tag]. unfold tagged_sample.
    set (st2 := match tag with Some l => make_callback l st1 | None => st1 end).
    assert (Hst2 : active_markers (view st2) = active_markers (view st1)
                    /\ snapshot st2 = snapshot st1 /\ full st2).
    { unfold st2. by destruct tag. }
    destruct Hst2 as (Hms & Hsnap & Hfull2). split.
    + rewrite active_markers_on_sample, Hms. apply elem_of_app. left.
      apply list_elem_of_filter. split.
      * unfold alive. simpl. lia.
      * apply list_elem_of_fmap.
        exists {| t_lbl := label; cur_x := Z.of_nat (MAX_POINTS - 1 - length xs) |}.
        split; [|done]. unfold age. simpl. f_equal; lia.
    + rewrite snapshot_on_sample, Hsnap by done. destruct Hfull1 as [_ Hfull1].
      rewrite lookup_app_l by (rewrite length_drop; lia).
      rewrite lookup_drop, <- Hsample. f_equal; lia.
Qed.

(** A label taken by the sample 1.5 and two samples after it. *)
Lemma marker_tracks_sample_witness :
  let st' := feed [(Example.clock0, 2.5%float, None);
                   (Example.clock1, 3.5%float, Some "Mark"%string)]
                  (on_sample Example.clock0 1.5%float (make_callback "Touch" (init ∅))) in
  {| t_lbl := "Touch"; cur_x := 297 |} ∈ active_markers (view st')
  /\ snapshot st' !! 297 = Some 1.5%float.
Proof.
  apply (marker_tracks_sample "Touch" Example.clock0 1.5%float
           [(Example.clock0, 2.5%float, None);
            (Example.clock1, 3.5%float, Some "Mark"%string)] (init ∅)).
  - apply full_init.
  - apply (bool_decide_unpack _). vm_compute. exact I.
Defined.

(** ** Samples outside the display band *)

Section error_points.
Open Scope float_scope.

Lemma SFcompare_antisym x y : SFcompare y x = CompOpp <$> SFcompare x y.
Proof.
  destruct x as [sx|sx| |sx mx ex], y as [sy|sy| |sy my ey]; simpl;
    try destruct sx; try destruct sy; try done; f_equal;
    rewrite (Z.compare_antisym ex ey); destruct (ex ?= ey)%Z; simpl; try done.
  - by rewrite (Pos.compare_cont_antisym mx my Eq).
  - by rewrite (Pos.compare_cont_antisym mx my Eq).
Qed.

Lemma SFcompare_refl x : x <> S754_nan -> SFcompare x x = Some Eq.
Proof.
  destruct x as [s|s| |s m e]; simpl; intros Hx; try done.
  - by destruct s.
  - rewrite Z.compare_refl. change (PosDef.Pos.compare_cont Eq m m) with (m ?= m)%positive.
    rewrite Pos.compare_refl. by destruct s.
Qed.

Lemma SFcompare_None x y : SFcompare x y = None -> x = S754_nan \/ y = S754_nan.
Proof. destruct x, y; simpl; intros Hc; try discriminate; auto. Qed.

Lemma is_nan_spec v : is_nan v = false <-> Prim2SF v <> S754_nan.
Proof.
  unfold is_nan. rewrite FloatAxioms.eqb_spec. unfold SFeqb. split.
  - intros Hv Hnan. rewrite Hnan in Hv. done.
  - intros Hv. by rewrite SFcompare_refl.
Qed.

Lemma ltb_not_nan x y : (x <? y) = true -> is_nan x = false /\ is_nan y = false.
Proof.
  rewrite ltb_spec, !is_nan_spec. unfold SFltb. intros Hlt.
  split; intros Hnan; rewrite Hnan in Hlt; simpl in Hlt; [done|].
  by destruct (Prim2SF x).
Qed.

Lemma leb_true_ltb_false x y : (x <=? y) = true -> (y <? x) = false.
Proof.
  rewrite leb_spec, ltb_spec. unfold SFleb, SFltb. rewrite (SFcompare_antisym _ (Prim2SF y)).
  by destruct (SFcompare (Prim2SF x) (Prim2SF y)) as [[| |]|].
Qed.

Lemma leb_false_ltb_true x y :
  is_nan x = false -> is_nan y = false -> (x <=? y) = false -> (y <? x) = true.
Proof.
  rewrite !is_nan_spec, leb_spec, ltb_spec. unfold SFleb, SFltb. intros Hx Hy.
  rewrite (SFcompare_antisym _ (Prim2SF y)).
  destruct (SFcompare (Prim2SF x) (Prim2SF y)) as [[| |]|] eqn:Hc; try done.
  by destruct (SFcompare_None _ _ Hc).
Qed.

(** One entry of [y_error]. *)
Lemma error_point_spec v :
  let e := if (0 <=? v) && (v <=? 5) then nan else v in
  (is_nan e = false <-> (v <? 0) = true \/ (5 <? v) = true)
  /\ (is_nan e = false -> e = v).
Proof.
  intros e. unfold e. destruct ((0 <=? v) && (v <=? 5)) eqn:Hband.
  - apply andb_prop in Hband as [Hlo Hhi].
    apply leb_true_ltb_false in Hlo, Hhi. rewrite Hlo, Hhi.
    split; [|done]. split; [done|]. by intros [?|?].
  - split; [|done]. split.
    + intros Hv. apply andb_false_iff in Hband as [Hlo|Hhi].
      * left. by apply leb_false_ltb_true.
      * right. by apply leb_false_ltb_true.
    + intros [Hlt|Hlt]; by apply ltb_not_nan in Hlt as [? ?].
Qed.

End error_points.

(** X13.  The red series marks exactly the samples outside the band: it
    has one entry per sample of the buffer, and an entry is a number (not
    NaN, hence drawn) exactly when its sample is below 0 or above 5, in
    which case it is the sample itself.  Samples inside the band, and
    samples that are not numbers, give no red point. *)
Theorem error_points_outside_band (y_data : list float) (i : nat) (v : float) :
  y_data !! i = Some v ->
  length (y_error y_data) = length y_data
  /\ exists e, y_error y_data !! i = Some e
               /\ (is_nan e = false <-> (v <? 0)%float = true \/ (5 <? v)%float = true)
               /\ (is_nan e = false -> e = v).
Proof.
  intros Hv. unfold y_error. rewrite length_fmap. split; [done|].
  rewrite list_lookup_fmap, Hv. simpl. eexists. split; [done|].
  apply error_point_spec.
Qed.

Lemma error_points_outside_band_witness :
  y_error [1.5; 5.5; -0.25; 5; nan; infinity]%float
  = [nan; 5.5; -0.25; nan; nan; infinity]%float
  /\ exists e, y_error [1.5; 5.5; -0.25; 5; nan; infinity]%float !! 1 = Some e
               /\ (is_nan e = false
                   <-> (5.5 <? 0)%float = true \/ (5 <? 5.5)%float = true).
Proof.
  split; [vm_compute; reflexivity|].
  destruct (error_points_outside_band [1.5; 5.5; -0.25; 5; nan; infinity]%float
              1 5.5%float eq_refl) as (_ & e & He & Hshown & _).
  exists e. exact (conj He Hshown).
Defined.

(** ** Tags and sessions *)

Section tags.

(** The file system after a sample: with the flag up and a writer, the
    row of the sample, carrying the pending label or the empty note, is
    added to the writer's file. *)
Lemma files_on_sample now v st :
  files (world (on_sample now v st))
  = match is_recording (recorder st), csv_writer (recorder st) with
    | true, Some f =>
        <[f := default [] (files (world st) !! f)
               ++ [data_row now v (default ""%string (pending_event (view st)))]]>
          (files (world st))
    | _, _ => files (world st)
    end.
Proof.
  unfold on_sample, take_event, save_row. simpl.
  destruct (pending_event (view st)); simpl;
    by destruct (is_recording (recorder st)), (csv_writer (recorder st)).
Qed.

Lemma pending_event_on_sample now v st : pending_event (view (on_sample now v st)) = None.
Proof.
  rewrite on_sample_view. unfold take_event. simpl.
  by destruct (pending_event (view st)).
Qed.

Lemma first_row_of_session now now' v st :
  is_recording (recorder st) = false ->
  let st1 := func_record_toggle now true st in
  files (world (on_sample now' v st1)) !! current_filename (recorder st1)
  = Some [header_row; data_row now' v (default ""%string (pending_event (view st)))].
Proof.
  intros Hidle st1. rewrite files_on_sample.
  unfold st1, func_record_toggle. rewrite Hidle. simpl.
  by rewrite !lookup_insert_eq.
Qed.



End tags.

(** X14.  A label taken while nothing is recorded is lost to the log: the
    next accepted sample consumes it (and sets its marker) without
    touching any file, and when a session is started afterwards its first
    row carries the empty note. *)
Theorem paused_tag_not_logged (label : string) (now now1 now2 : Clock) (v v' : float)
    (st : State) :
  is_recording (recorder st) = false ->
  let st1 := on_sample now v (make_callback label st) in
  let st2 := func_record_toggle now1 true st1 in
  files (world st1) = files (world st)
  /\ pending_event (view st1) = None
  /\ {| t_lbl := label; cur_x := (Z.of_nat MAX_POINTS - 1)%Z |}
     ∈ active_markers (view st1)
  /\ files (world (on_sample now2 v' st2)) !! current_filename (recorder st2)
     = Some [header_row; data_row now2 v' ""].
Proof.
  intros Hidle st1 st2.
  assert (Hidle1 : is_recording (recorder st1) = false).
  { unfold st1, on_sample, take_event, save_row. simpl. by rewrite Hidle. }
  assert (Hpend : pending_event (view st1) = None) by apply pending_event_on_sample.
  split_and!.
  - unfold st1. rewrite files_on_sample. simpl. by rewrite Hidle.
  - done.
  - unfold st1, on_sample, take_event, save_row. simpl. rewrite Hidle. simpl.
    apply elem_of_app. right. by apply list_elem_of_singleton.
  - unfold st2. rewrite (first_row_of_session now1 now2 v' st1 Hidle1).
    by rewrite Hpend.
Qed.

Lemma paused_tag_not_logged_witness :
  let st1 := on_sample Example.clock0 1.5%float (make_callback "Touch" (init ∅)) in
  let st2 := func_record_toggle Example.clock1 true st1 in
  files (world st1) = ∅
  /\ files (world (on_sample Example.clock1 2.5%float st2)) !! "Run_01_143100.csv"%string
     = Some [header_row; data_row Example.clock1 2.5%float ""].
Proof.
  destruct (paused_tag_not_logged "Touch" Example.clock0 Example.clock1 Example.clock1
              1.5%float 2.5%float (init ∅) eq_refl) as (Hfiles & _ & _ & Hrow).
  exact (conj Hfiles Hrow).
Defined.



(** ** Auto-scaling *)

